(** * Doc-scanner: the extraction pipeline and the per-file status tracker

    A shallow embedding of [src/Doc-scanner/services.py] (PDF text
    extractor, response normalizer, extraction orchestrator) and of
    [src/Doc-scanner/routes.py] (single-file analyze and bulk sweep), with
    the properties of the specification stated over it. *)

From Stdlib Require Import List NArith ZArith String Ascii Strings.Byte Bool Lia.
From Stdlib Require Import DecimalString Permutation.
Import ListNotations.

(** ** Python strings

    A Python [str] is a sequence of Unicode code points.  [str.strip()] and
    the regular-expression class [\s] (for [str] patterns) both use the same
    whitespace predicate, [str.isspace] on one character. *)

Module PyStr.

Definition char := N.
Definition str := list char.

(** A literal of the source, written with ASCII characters only. *)
Definition lit (s : string) : str := map N_of_ascii (list_ascii_of_string s).

Definition isspace (c : char) : bool :=
  (((9 <=? c) && (c <=? 13)) || ((28 <=? c) && (c <=? 32))
   || (c =? 133) || (c =? 160) || (c =? 5760)
   || ((8192 <=? c) && (c <=? 8202))
   || (c =? 8232) || (c =? 8233) || (c =? 8239) || (c =? 8287)
   || (c =? 12288))%N.

(** [s.lstrip()], [s.rstrip()], [s.strip()] *)
Fixpoint lstrip (s : str) : str :=
  match s with
  | [] => []
  | c :: r => if isspace c then lstrip r else s
  end.

Definition rstrip (s : str) : str := rev (lstrip (rev s)).

Definition strip (s : str) : str := rstrip (lstrip s).

(** A string is trimmed when [strip] leaves it alone. *)
Definition trimmed (s : str) : Prop := strip s = s.

(** [strip_prefix p s] is [Some r] when [s = p ++ r] *)
Fixpoint strip_prefix (p s : str) : option str :=
  match p, s with
  | [], _ => Some s
  | _ :: _, [] => None
  | a :: p', b :: s' => if (a =? b)%N then strip_prefix p' s' else None
  end.

(** [strip_suffix p s] is [Some r] when [s = r ++ p] *)
Definition strip_suffix (p s : str) : option str :=
  option_map (@rev char) (strip_prefix (rev p) (rev s)).

Definition startswith (p s : str) : bool :=
  match strip_prefix p s with Some _ => true | None => false end.

Definition endswith (p s : str) : bool :=
  match strip_suffix p s with Some _ => true | None => false end.

Fixpoint str_eqb (a b : str) : bool :=
  match a, b with
  | [], [] => true
  | x :: a', y :: b' => (x =? y)%N && str_eqb a' b'
  | _, _ => false
  end.

(** [s[:n]] for a non-negative [n] *)
Definition slice_to (n : nat) (s : str) : str := firstn n s.

End PyStr.
Import PyStr.

(** ** Response normalizer ([clean_json_response], services.py 68-82) *)

Module Normalizer.

Definition fence : str := lit "```".
Definition fence_json : str := lit "```json".
Definition newline : str := lit (String (ascii_of_nat 10) EmptyString).

(** [re.sub('^' + p + '\s*', '', s)] for a literal [p]: without MULTILINE
    the anchor holds at position 0 only, so at most one match is replaced;
    the greedy [\s*] takes the whole whitespace run after [p]. *)
Definition re_sub_leading (p s : str) : str :=
  match strip_prefix p s with
  | Some r => lstrip r
  | None => s
  end.

(** [re.sub('\s*```$', '', s)]: [$] holds at the end of the string and just
    before a newline that ends the string.  The leftmost match starts at the
    beginning of the whitespace run in front of the last fence. *)
Definition re_sub_trailing_fence (s : str) : str :=
  match strip_suffix fence s with
  | Some r => rstrip r
  | None =>
      match strip_suffix (fence ++ newline) s with
      | Some r => rstrip r ++ newline
      | None => s
      end
  end.

Definition clean_json_response (text : str) : str :=
  let text := re_sub_leading fence_json (strip text) in
  let text := re_sub_leading fence (strip text) in
  let text := re_sub_trailing_fence (strip text) in
  strip text.

End Normalizer.
Import Normalizer.

(** ** Exceptions and a state-and-exception monad

    Fallible calls either return or raise; effectful code threads a state
    and may raise.  [try_except] is [try: ... except ... as e: ...]: state
    changes made before the exception are kept, and what leaves the
    statement is what the handler raises. *)

Module Eff.

Inductive outcome (E A : Type) : Type :=
| Returned (a : A)
| Raised (e : E).
Arguments Returned {E A} a.
Arguments Raised {E A} e.

Definition M (S E A : Type) : Type := S -> outcome E A * S.

Definition ret {S E A} (a : A) : M S E A := fun s => (Returned a, s).

Definition raise {S E A} (e : E) : M S E A := fun s => (Raised e, s).

Definition bind {S E A B} (c : M S E A) (k : A -> M S E B) : M S E B :=
  fun s =>
    match c s with
    | (Returned a, s') => k a s'
    | (Raised e, s') => (Raised e, s')
    end.

Definition try_except {S E E' A} (c : M S E A) (h : E -> M S E' A) : M S E' A :=
  fun s =>
    match c s with
    | (Returned a, s') => (Returned a, s')
    | (Raised e, s') => h e s'
    end.

Definition lift {S E A} (o : outcome E A) : M S E A := fun s => (o, s).

Definition get {S E} : M S E S := fun s => (Returned s, s).

Definition modify {S E} (f : S -> S) : M S E unit := fun s => (Returned tt, f s).

End Eff.
Import Eff.

Declare Scope eff_scope.
Delimit Scope eff_scope with eff.
Notation "x <- c ;; k" := (bind c (fun x => k))
  (at level 61, c at next level, right associativity) : eff_scope.
Notation "c ;; k" := (bind c (fun _ => k))
  (at level 61, right associativity) : eff_scope.
Open Scope eff_scope.

(** Python exceptions as the handlers of the two modules tell them apart:
    [except RuntimeError] (subclasses included), [except json.JSONDecodeError],
    and every other [Exception], which carries [type(e).__name__]. *)
Inductive exn : Type :=
| RuntimeError (msg : str)
| JSONDecodeError (msg : str)
| OtherException (type_name msg : str).

(** [str(e)] *)
Definition exn_str (e : exn) : str :=
  match e with
  | RuntimeError m => m
  | JSONDecodeError m => m
  | OtherException _ m => m
  end.

(** [type(e).__name__] *)
Definition exn_type_name (e : exn) : str :=
  match e with
  | RuntimeError _ => lit "RuntimeError"
  | JSONDecodeError _ => lit "JSONDecodeError"
  | OtherException n _ => n
  end.

Definition bytes := list byte.

(** A stored file content as Python sees it: a [bytes] object or [None]. *)
Definition content := option bytes.

(** What [json.loads] returns. *)
#[local] Unset Elimination Schemes.
Inductive json : Type :=
| JNull
| JBool (b : bool)
| JNumber (repr : str)
| JString (s : str)
| JArray (items : list json)
| JObject (members : list (str * json)).
#[local] Set Elimination Schemes.

(** The dict returned by [extract_from_pdf]: each key is present or not. *)
Record ExtractionResult : Type := mkResult {
  success : option bool;
  data : option json;
  error : option str;
  details : option str;
  gemini_response : option str;
  parse_error : option str;
  raw_text_preview : option str;
  type_ : option str
}.

(** [d.get(key, default)] *)
Definition dict_get {A} (field : option A) (default : A) : A :=
  match field with Some v => v | None => default end.

(** ** services.py *)

Module Services.

(** One page of an opened document: [page.get_text()], and what rendering
    the page at 2x and passing it to [pytesseract.image_to_string] gives. *)
Record Page : Type := mkPage {
  get_text : str;
  ocr : outcome exn str
}.

(** The remote model is an external service with a state of its own; the
    prompts sent to it are logged, in call order. *)
Record World (Remote : Type) : Type := mkWorld {
  remote : Remote;
  prompts : list str
}.
Arguments mkWorld {Remote} remote prompts.
Arguments remote {Remote} w.
Arguments prompts {Remote} w.

Definition nl : str := [10%N].
Definition dquote : str := [34%N].

(** The f-string of lines 110-122. *)
Definition prompt_of (text : str) : str :=
  lit "Extract information from this document and return ONLY a JSON object (no markdown, no explanation)." ++ nl
  ++ nl
  ++ lit "Required fields:" ++ nl
  ++ lit "- invoice_number: string (or null if not found)" ++ nl
  ++ lit "- date: string in format " ++ dquote ++ lit "DD MMM YYYY" ++ dquote ++ lit " (or null)" ++ nl
  ++ lit "- vendor: string (or null)" ++ nl
  ++ lit "- total_amount: string (or null)" ++ nl
  ++ lit "- currency: string (3-letter code like USD, EUR, or null)" ++ nl
  ++ nl
  ++ lit "Document text:" ++ nl
  ++ text ++ nl
  ++ nl
  ++ lit "Return ONLY the JSON object, nothing else:".

Section Collaborators.

Variable Remote : Type.
(** [fitz.open(stream=pdf_bytes, filetype="pdf")] and the page reads *)
Variable fitz_open : content -> outcome exn (list Page).
(** the import check of lines 9-14 *)
Variable OCR_AVAILABLE : bool.
(** [client_genai.models.generate_content(model=..., contents=prompt).text] *)
Variable generate_content : str -> Remote -> outcome exn (option str) * Remote.
Variable json_loads : str -> outcome exn json.

(** Lines 42-53: the text of one page.  The message printed when OCR fails
    is not modelled. *)
Definition page_text (use_ocr : bool) (page : Page) : str :=
  if use_ocr && OCR_AVAILABLE && (List.length (strip (get_text page)) <? 50)
  then match ocr page with
       | Returned t => t
       | Raised _ => get_text page
       end
  else get_text page.

(** The loop of lines 40-55, [text] being the accumulator. *)
Fixpoint read_pages (use_ocr : bool) (pages : list Page) (text : str) : str :=
  match pages with
  | [] => text
  | page :: rest => read_pages use_ocr rest (text ++ page_text use_ocr page ++ nl)
  end.

Definition is_empty (s : str) : bool :=
  match s with [] => true | _ => false end.

Definition extract_text_from_pdf (pdf_bytes : content) (use_ocr : bool)
  : outcome exn str :=
  let body :=
    match fitz_open pdf_bytes with
    | Raised e => Raised e
    | Returned pages =>
        let text := read_pages use_ocr pages [] in
        if is_empty text || (List.length (strip text) <? 10)
        then Raised (RuntimeError (lit
               "No text extracted from PDF. PDF might be empty, corrupted, or require OCR."))
        else Returned (strip text)
    end in
  match body with
  | Returned t => Returned t
  | Raised e => Raised (RuntimeError (lit "PDF text extraction failed: " ++ exn_str e))
  end.

(** The call of lines 125-128, logged. *)
Definition generate (prompt : str) : M (World Remote) exn (option str) :=
  fun w =>
    let (o, r) := generate_content prompt (remote w) in
    (o, mkWorld r (prompts w ++ [prompt])).

(** [clean_json_response(response.text)] starts with [text.strip()], which
    raises AttributeError when [response.text] is [None]. *)
Definition response_text (t : option str) : M (World Remote) exn str :=
  match t with
  | Some s => ret s
  | None => raise (OtherException (lit "AttributeError")
                     (lit "'NoneType' object has no attribute 'strip'"))
  end.

Definition extract_from_pdf (pdf_bytes : content) (use_ocr : bool)
  : M (World Remote) exn ExtractionResult :=
  try_except
    (text <- lift (extract_text_from_pdf pdf_bytes use_ocr) ;;
     let prompt := prompt_of text in
     response <- generate prompt ;;
     raw <- response_text response ;;
     let cleaned_text := clean_json_response raw in
     try_except
       (extracted <- lift (json_loads cleaned_text) ;;
        ret {| success := Some true;
               data := Some extracted;
               error := None;
               details := None;
               gemini_response := None;
               parse_error := None;
               raw_text_preview := Some (slice_to 200 text);
               type_ := None |})
       (fun e =>
          match e with
          | JSONDecodeError _ =>
              ret {| success := Some false;
                     data := None;
                     error := Some (lit "Failed to parse JSON from Gemini");
                     details := None;
                     gemini_response := Some cleaned_text;
                     parse_error := Some (exn_str e);
                     raw_text_preview := Some (slice_to 200 text);
                     type_ := None |}
          | _ => raise e
          end))
    (fun e =>
       match e with
       | RuntimeError _ =>
           ret {| success := Some false;
                  data := None;
                  error := Some (lit "PDF processing failed");
                  details := Some (exn_str e);
                  gemini_response := None;
                  parse_error := None;
                  raw_text_preview := None;
                  type_ := None |}
       | _ =>
           ret {| success := Some false;
                  data := None;
                  error := Some (lit "Unexpected error");
                  details := Some (exn_str e);
                  gemini_response := None;
                  parse_error := None;
                  raw_text_preview := None;
                  type_ := Some (exn_type_name e) |}
       end).

End Collaborators.

Arguments generate {Remote} generate_content prompt _.
Arguments response_text {Remote} t _.
Arguments extract_from_pdf {Remote} fitz_open OCR_AVAILABLE generate_content
  json_loads pdf_bytes use_ocr _.

End Services.

(** ** routes.py *)

Module Routes.

Inductive Status : Type := pending | analyzing | completed | failed.

Definition status_eqb (a b : Status) : bool :=
  match a, b with
  | pending, pending | analyzing, analyzing
  | completed, completed | failed, failed => true
  | _, _ => false
  end.

(** A row of the uploaded-files table, with the columns the routes use. *)
Record UploadedFile : Type := mkFile {
  id : Z;
  filename : str;
  file_size : Z;
  file_type : str;
  status : Status;
  upload_time : Z;
  file_content : content;
  extracted_data : option str;
  error_message : option str
}.

(** What a route body raises: an [HTTPException] of its own (services.py
    does not import it, so none comes from the orchestrator), or an
    exception of a callee, which [except Exception] catches. *)
Inductive raised : Type :=
| HTTPException (status_code : Z) (detail : str)
| Exception (e : exn).

Record World (Ext : Type) : Type := mkWorld {
  db : list UploadedFile;
  ext : Ext
}.
Arguments mkWorld {Ext} db ext.
Arguments db {Ext} w.
Arguments ext {Ext} w.

(** [.values(status=s)] *)
Definition values_status (s : Status) (row : UploadedFile) : UploadedFile :=
  mkFile (id row) (filename row) (file_size row) (file_type row) s
         (upload_time row) (file_content row)
         (extracted_data row) (error_message row).

(** [.values(status="completed", extracted_data=d)] *)
Definition values_completed (d : str) (row : UploadedFile) : UploadedFile :=
  mkFile (id row) (filename row) (file_size row) (file_type row) completed
         (upload_time row) (file_content row)
         (Some d) (error_message row).

(** [.values(status="failed", error_message=m)] *)
Definition values_failed (m : str) (row : UploadedFile) : UploadedFile :=
  mkFile (id row) (filename row) (file_size row) (file_type row) failed
         (upload_time row) (file_content row)
         (extracted_data row) (Some m).

(** [table.update().where(table.c.id == file_id).values(...)] *)
Definition update_where_id (file_id : Z) (values : UploadedFile -> UploadedFile)
  (table : list UploadedFile) : list UploadedFile :=
  map (fun row => if (id row =? file_id)%Z then values row else row) table.

(** [select(...).where(id == file_id)] then [.first()] *)
Definition select_first_by_id (file_id : Z) (table : list UploadedFile)
  : option UploadedFile :=
  find (fun row => (id row =? file_id)%Z) table.

(** [select(...).where(status == "pending")] then [.fetchall()] *)
Definition select_pending (table : list UploadedFile) : list UploadedFile :=
  filter (fun row => status_eqb (status row) pending) table.

(** [not result.file_content] *)
Definition falsy (c : content) : bool :=
  match c with
  | None | Some [] => true
  | Some (_ :: _) => false
  end.

Record AnalyzeResponse : Type := mkAnalyzeResponse {
  resp_id : Z;
  resp_status : Status;
  resp_extracted : ExtractionResult;
  resp_message : str
}.

Record Entry : Type := mkEntry {
  entry_id : Z;
  entry_filename : str;
  entry_status : Status;
  entry_error : option str
}.

Record SweepResponse : Type := mkSweepResponse {
  message : str;
  analyzed_count : nat;
  total_processed : option nat;
  results : option (list Entry)
}.

(** [f"{n}"] for a non-negative integer *)
Definition decimal (n : nat) : str := lit (NilEmpty.string_of_uint (Nat.to_uint n)).

(** An exception of a callee, seen from a route body. *)
Definition as_exception {S A} (c : M S exn A) : M S raised A :=
  try_except c (fun e => raise (Exception e)).

(** An update that leaves the primary key alone. *)
Definition keeps_id (f : UploadedFile -> UploadedFile) : Prop :=
  forall row, id (f row) = id row.

(** No row of the table is in state [analyzing]. *)
Definition no_analyzing (table : list UploadedFile) : bool :=
  forallb (fun row => negb (status_eqb (status row) analyzing)) table.

(** The row stored under [file_id] is in state [completed]. *)
Definition reached_completed (table : list UploadedFile) (file_id : Z) : bool :=
  match select_first_by_id file_id table with
  | Some row => status_eqb (status row) completed
  | None => false
  end.

(** What the two final updates do to a row: nothing, or one of the two
    [values] above. *)
Inductive transition (row row' : UploadedFile) : Prop :=
| untouched : row' = row -> transition row row'
| to_completed (d : str) : row' = values_completed d row -> transition row row'
| to_failed (m : str) : row' = values_failed m row -> transition row row'.

Section Handlers.

(** The orchestrator imported from services.py acts on a world of its own
    (it never touches the table); [json.dumps] is total on what it gets. *)
Variable Ext : Type.
Variable extract_from_pdf : content -> M Ext exn ExtractionResult.
Variable json_dumps : json -> str.

Definition execute_update {E} (file_id : Z) (values : UploadedFile -> UploadedFile)
  : M (World Ext) E unit :=
  modify (fun w => mkWorld (update_where_id file_id values (db w)) (ext w)).

Definition call_extract (pdf_bytes : content) : M (World Ext) exn ExtractionResult :=
  fun w =>
    let (o, x) := extract_from_pdf pdf_bytes (ext w) in
    (o, mkWorld (db w) x).

(** The update of lines 86-105 and 165-185. *)
Definition store_result {E} (file_id : Z) (extracted : ExtractionResult)
  : M (World Ext) E unit :=
  if dict_get (success extracted) false
  then execute_update file_id
         (values_completed (json_dumps (dict_get (data extracted) (JObject []))))
  else execute_update file_id
         (values_failed (dict_get (error extracted) (lit "Unknown error"))).

Definition status_of (extracted : ExtractionResult) : Status :=
  if dict_get (success extracted) false then completed else failed.

Definition analyze_file (file_id : Z) : M (World Ext) raised AnalyzeResponse :=
  try_except
    (w <- get ;;
     match select_first_by_id file_id (db w) with
     | None => raise (HTTPException 404 (lit "File not found"))
     | Some result =>
         if falsy (file_content result)
         then raise (HTTPException 400 (lit "File content not found"))
         else
           execute_update file_id (values_status analyzing) ;;
           let pdf_bytes := file_content result in
           extracted <- as_exception (call_extract pdf_bytes) ;;
           store_result file_id extracted ;;
           ret (mkAnalyzeResponse file_id (status_of extracted) extracted
                  (if dict_get (success extracted) false
                   then lit "Analysis completed successfully"
                   else lit "Analysis failed"))
     end)
    (fun r =>
       match r with
       | HTTPException _ _ => raise r
       | Exception e =>
           execute_update file_id (values_failed (exn_str e)) ;;
           raise (HTTPException 500 (exn_str e))
       end).

(** One turn of the loop of lines 150-208; [analyzed_count] and [results]
    are the two locals, changed only after the orchestrator has returned. *)
Definition sweep_one (file : UploadedFile) (analyzed_count : nat)
  (results : list Entry) : M (World Ext) exn (nat * list Entry) :=
  try_except
    (execute_update (id file) (values_status analyzing) ;;
     extracted <- call_extract (file_content file) ;;
     store_result (id file) extracted ;;
     ret ((if dict_get (success extracted) false
           then S analyzed_count else analyzed_count),
          results ++ [mkEntry (id file) (filename file) (status_of extracted) None]))
    (fun e =>
       execute_update (id file) (values_failed (exn_str e)) ;;
       ret (analyzed_count,
            results ++ [mkEntry (id file) (filename file) failed (Some (exn_str e))])).

Fixpoint sweep (pending_files : list UploadedFile) (analyzed_count : nat)
  (results : list Entry) : M (World Ext) exn (nat * list Entry) :=
  match pending_files with
  | [] => ret (analyzed_count, results)
  | file :: rest =>
      acc <- sweep_one file analyzed_count results ;;
      sweep rest (fst acc) (snd acc)
  end.

Definition analyze_all_pending : M (World Ext) raised SweepResponse :=
  try_except
    (w <- get ;;
     let pending_files := select_pending (db w) in
     match pending_files with
     | [] => ret (mkSweepResponse (lit "No pending files to analyze") 0 None None)
     | _ :: _ =>
         acc <- sweep pending_files 0 [] ;;
         ret (mkSweepResponse
                (lit "Analysis completed for " ++ decimal (fst acc) ++ lit " files")
                (fst acc)
                (Some (List.length pending_files))
                (Some (snd acc)))
     end)
    (fun e : exn => raise (HTTPException 500 (exn_str e))).

(** The outcomes of the orchestrator over a queue of files, in queue order,
    its world threaded from one call to the next. *)
Fixpoint outcomes (files : list UploadedFile) (x : Ext)
  : list (outcome exn ExtractionResult) :=
  match files with
  | [] => []
  | file :: rest =>
      let (o, x') := extract_from_pdf (file_content file) x in
      o :: outcomes rest x'
  end.

(** The status an outcome leads to, and the entry reported for it. *)
Definition final_status (o : outcome exn ExtractionResult) : Status :=
  match o with
  | Returned extracted => status_of extracted
  | Raised _ => failed
  end.

Definition entry_of (file : UploadedFile) (o : outcome exn ExtractionResult) : Entry :=
  mkEntry (id file) (filename file) (final_status o)
    (match o with Returned _ => None | Raised e => Some (exn_str e) end).

(** The [values] of the update that ends a turn. *)
Definition final_values (o : outcome exn ExtractionResult)
  : UploadedFile -> UploadedFile :=
  match o with
  | Returned extracted =>
      if dict_get (success extracted) false
      then values_completed (json_dumps (dict_get (data extracted) (JObject [])))
      else values_failed (dict_get (error extracted) (lit "Unknown error"))
  | Raised e => values_failed (exn_str e)
  end.

(** What analysing the file [file_id] with outcome [o] does to one row: the
    update to [analyzing] followed by the final update, where the id
    matches. *)
Definition turn_row (file_id : Z) (o : outcome exn ExtractionResult)
  (row : UploadedFile) : UploadedFile :=
  if (id row =? file_id)%Z then final_values o (values_status analyzing row) else row.

(** What a sweep over [files] with outcomes [outs] does to one row. *)
Fixpoint row_after (files : list UploadedFile)
  (outs : list (outcome exn ExtractionResult)) (row : UploadedFile) : UploadedFile :=
  match files, outs with
  | file :: rest, o :: outs' => row_after rest outs' (turn_row (id file) o row)
  | _, _ => row
  end.

(** The orchestrator's world after a sweep. *)
Fixpoint ext_after (files : list UploadedFile) (x : Ext) : Ext :=
  match files with
  | [] => x
  | file :: rest => ext_after rest (snd (extract_from_pdf (file_content file) x))
  end.

End Handlers.

Arguments outcomes {Ext} extract_from_pdf files x.
Arguments ext_after {Ext} extract_from_pdf files x.
Arguments execute_update {Ext E} file_id values _.
Arguments call_extract {Ext} extract_from_pdf pdf_bytes _.
Arguments store_result {Ext} json_dumps {E} file_id extracted _.
Arguments analyze_file {Ext} extract_from_pdf json_dumps file_id _.
Arguments sweep_one {Ext} extract_from_pdf json_dumps file analyzed_count results _.
Arguments sweep {Ext} extract_from_pdf json_dumps pending_files analyzed_count results _.
Arguments analyze_all_pending {Ext} extract_from_pdf json_dumps _.

End Routes.

(** ** The assembled application, and stand-ins for its collaborators *)

Module App.

Section Assembled.

Variable Remote : Type.
Variable fitz_open : content -> outcome exn (list Services.Page).
Variable OCR_AVAILABLE : bool.
Variable generate_content : str -> Remote -> outcome exn (option str) * Remote.
Variable json_loads : str -> outcome exn json.
Variable json_dumps : json -> str.

(** Both routes call [extract_from_pdf(content)], [use_ocr] at its
    default. *)
Definition orchestrator (pdf_bytes : content)
  : M (Services.World Remote) exn ExtractionResult :=
  Services.extract_from_pdf fitz_open OCR_AVAILABLE generate_content json_loads
    pdf_bytes false.

Definition analyze_file (file_id : Z) :=
  Routes.analyze_file orchestrator json_dumps file_id.

Definition analyze_all_pending :=
  Routes.analyze_all_pending orchestrator json_dumps.

End Assembled.

Arguments orchestrator {Remote} fitz_open OCR_AVAILABLE generate_content json_loads
  pdf_bytes _.
Arguments analyze_file {Remote} fitz_open OCR_AVAILABLE generate_content json_loads
  json_dumps file_id _.
Arguments analyze_all_pending {Remote} fitz_open OCR_AVAILABLE generate_content
  json_loads json_dumps _.

End App.

Module Stubs.

Definition pdf_invoice : content := Some [x25; x50; x44; x46].
Definition pdf_scanned : content := Some [x25].
Definition pdf_corrupt : content := Some [x00].

Definition no_ocr : outcome exn str :=
  Raised (OtherException (lit "TesseractNotFoundError") (lit "tesseract is not installed")).

(** Two pages of text for [pdf_invoice], three characters for
    [pdf_scanned], a parse error for anything else. *)
Definition fitz_open (c : content) : outcome exn (list Services.Page) :=
  match c with
  | Some [x25; x50; x44; x46] =>
      Returned [Services.mkPage (lit "Invoice INV-1") no_ocr;
                Services.mkPage (lit "Total 10 USD") no_ocr]
  | Some [x25] => Returned [Services.mkPage (lit "abc") no_ocr]
  | _ => Raised (OtherException (lit "FileDataError") (lit "Failed to open stream"))
  end.

(** A model that answers prose to its first prompt and a fenced JSON object
    afterwards; its state counts the prompts served. *)
Definition generate_content (prompt : str) (served : nat)
  : outcome exn (option str) * nat :=
  match served with
  | 0 => (Returned (Some (lit "not json")), 1)
  | S n => (Returned (Some (lit "```json {} ```")), S (S n))
  end.

(** A decoder that knows one JSON text. *)
Definition json_loads (s : str) : outcome exn json :=
  if str_eqb s (lit "{}") then Returned (JObject [])
  else Raised (JSONDecodeError (lit "Expecting value: line 1 column 1 (char 0)")).

Definition json_dumps (j : json) : str :=
  match j with
  | JObject [] => lit "{}"
  | _ => lit "null"
  end.

Definition fresh (served : nat) : Services.World nat := Services.mkWorld served [].

(** The orchestrator over these stand-ins. *)
Definition orchestrator : content -> M (Services.World nat) exn ExtractionResult :=
  App.orchestrator fitz_open false generate_content json_loads.

(** An orchestrator whose second call raises; its world counts the calls. *)
Definition flaky (c : content) (calls : nat) : outcome exn ExtractionResult * nat :=
  match calls with
  | 1 => (Raised (OtherException (lit "ServerError") (lit "503 UNAVAILABLE")), 2)
  | _ => (Returned (mkResult (Some true) (Some (JObject [])) None None None None
                      (Some (lit "Invoice INV-1")) None),
          S calls)
  end.

(** A file as the upload route stores it. *)
Definition uploaded (file_id : Z) (c : content) : Routes.UploadedFile :=
  Routes.mkFile file_id (lit "invoice.pdf") 4 (lit "application/pdf")
    Routes.pending 0 c None None.

Definition queue : list Routes.UploadedFile :=
  [uploaded 1 pdf_invoice; uploaded 2 pdf_invoice; uploaded 3 pdf_invoice].

Definition queue_world (calls : nat) : Routes.World nat := Routes.mkWorld queue calls.

Definition one_file_world : Routes.World (Services.World nat) :=
  Routes.mkWorld [uploaded 1 pdf_invoice] (fresh 0).

(** The three columns of the status tracker. *)
Definition tracked (row : Routes.UploadedFile) : Routes.Status * option str * option str :=
  (Routes.status row, Routes.extracted_data row, Routes.error_message row).

End Stubs.

(** ** routes.py: upload, listing, lookup and deletion *)

Module Endpoints.
Import Routes.

(** The dict built by [get_file], and for each row by [get_all_files];
    Python's [None] for [extracted_data] is [JNull]. *)
Record FileView : Type := mkFileView {
  view_id : Z;
  view_filename : str;
  view_file_size : Z;
  view_file_type : str;
  view_status : Status;
  view_upload_time : option str;
  view_extracted_data : json;
  view_error_message : option str
}.

Record UploadResponse : Type := mkUploadResponse {
  up_id : Z;
  up_filename : str;
  up_file_size : Z;
  up_status : Status;
  up_upload_time : str;
  up_message : str
}.

Record DeleteResponse : Type := mkDeleteResponse {
  del_message : str;
  del_id : Z
}.

(** [delete(DBUploadedFile).where(DBUploadedFile.id == file_id)] *)
Definition delete_where_id (file_id : Z) (table : list UploadedFile)
  : list UploadedFile :=
  filter (fun row => negb (id row =? file_id)%Z) table.

(** [file.content_type or "application/pdf"] *)
Definition content_type_or_pdf (content_type : option str) : str :=
  match content_type with
  | None | Some [] => lit "application/pdf"
  | Some (c :: t) => c :: t
  end.

Section Handlers.

(** [json.loads] and [datetime.isoformat] are library functions; the order
    of [ORDER BY upload_time DESC] and the key given to an inserted row are
    the database's. *)
Variable Ext : Type.
Variable json_loads : str -> outcome exn json.
Variable isoformat : Z -> str.
Variable order_by_upload_time_desc : list UploadedFile -> list UploadedFile.
Variable inserted_primary_key : list UploadedFile -> Z.

(** Lines 234-239 and 272-277: the stored text is decoded when it is set
    and not empty; a decoding failure gives [None]. *)
Definition decode_extracted (stored : option str) : json :=
  match stored with
  | None | Some [] => JNull
  | Some (c :: t) =>
      match json_loads (c :: t) with
      | Returned v => v
      | Raised _ => JNull
      end
  end.

(** Lines 241-250 and 279-288. *)
Definition file_view (row : UploadedFile) : FileView :=
  mkFileView (id row) (filename row) (file_size row) (file_type row) (status row)
    (Some (isoformat (upload_time row)))
    (decode_extracted (extracted_data row))
    (error_message row).

(** The insert of lines 22-33: the columns not named are NULL. *)
Definition insert_values (filename : str) (content_type : option str)
  (pdf_bytes : bytes) (utcnow : Z) (table : list UploadedFile) : UploadedFile :=
  mkFile (inserted_primary_key table) filename (Z.of_nat (List.length pdf_bytes))
    (content_type_or_pdf content_type) pending utcnow (Some pdf_bytes) None None.

(** [upload_file]; [pdf_bytes] is what [file.read()] gave and [utcnow] the
    clock.  With no row under the new key the function falls off its end
    and returns [None]. *)
Definition upload_file (filename : str) (content_type : option str)
  (pdf_bytes : bytes) (utcnow : Z) : M (World Ext) raised (option UploadResponse) :=
  try_except
    (w <- get ;;
     let file_id := inserted_primary_key (db w) in
     modify (fun w => mkWorld
               (db w ++ [insert_values filename content_type pdf_bytes utcnow (db w)])
               (ext w)) ;;
     w <- get ;;
     match select_first_by_id file_id (db w) with
     | Some result =>
         ret (Some (mkUploadResponse (id result) (Routes.filename result) (file_size result)
                      (status result) (isoformat (upload_time result))
                      (lit "File uploaded successfully. Click 'Analyze' to extract data.")))
     | None => ret None
     end)
    (fun e : exn => raise (HTTPException 500 (exn_str e))).

Definition get_all_files : M (World Ext) raised (list FileView) :=
  try_except
    (w <- get ;;
     ret (map file_view (order_by_upload_time_desc (db w))))
    (fun e : exn => raise (HTTPException 500 (exn_str e))).

Definition get_file (file_id : Z) : M (World Ext) raised FileView :=
  try_except
    (w <- get ;;
     match select_first_by_id file_id (db w) with
     | None => raise (HTTPException 404 (lit "File not found"))
     | Some result => ret (file_view result)
     end)
    (fun r =>
       match r with
       | HTTPException _ _ => raise r
       | Exception e => raise (HTTPException 500 (exn_str e))
       end).

Definition delete_file (file_id : Z) : M (World Ext) raised DeleteResponse :=
  try_except
    (w <- get ;;
     match select_first_by_id file_id (db w) with
     | None => raise (HTTPException 404 (lit "File not found"))
     | Some _ =>
         modify (fun w => mkWorld (delete_where_id file_id (db w)) (ext w)) ;;
         ret (mkDeleteResponse (lit "File deleted successfully") file_id)
     end)
    (fun r =>
       match r with
       | HTTPException _ _ => raise r
       | Exception e => raise (HTTPException 500 (exn_str e))
       end).

End Handlers.

Arguments get_file {Ext} json_loads isoformat file_id _.
Arguments get_all_files {Ext} json_loads isoformat order_by_upload_time_desc _.
Arguments delete_file {Ext} file_id _.
Arguments upload_file {Ext} isoformat inserted_primary_key filename content_type
  pdf_bytes utcnow _.

End Endpoints.

(** ** The router: the six routes over one table *)

Module Server.
Import Routes Endpoints.

Inductive request : Type :=
| POST_upload (filename : str) (content_type : option str) (pdf_bytes : bytes)
    (utcnow : Z)
| POST_analyze (file_id : Z)
| POST_analyze_all
| GET_files
| GET_file (file_id : Z)
| DELETE_file (file_id : Z).

(** The columns no route writes after the insert. *)
Definition immutable_columns (row : UploadedFile)
  : Z * str * Z * str * Z * content :=
  (id row, filename row, file_size row, file_type row, upload_time row,
   file_content row).

Definition is_set {A : Type} (field : option A) : bool :=
  match field with Some _ => true | None => false end.

(** What the status of a row says about its two result columns. *)
Definition consistent (row : UploadedFile) : bool :=
  match status row with
  | pending => negb (is_set (extracted_data row)) && negb (is_set (error_message row))
  | analyzing => false
  | completed => is_set (extracted_data row)
  | failed => is_set (error_message row)
  end.

Section Router.

Variable Ext : Type.
Variable extract_from_pdf : content -> M Ext exn ExtractionResult.
Variable json_loads : str -> outcome exn json.
Variable json_dumps : json -> str.
Variable isoformat : Z -> str.
Variable order_by_upload_time_desc : list UploadedFile -> list UploadedFile.
Variable inserted_primary_key : list UploadedFile -> Z.

(** The world after one request, whatever was answered. *)
Definition serve (r : request) (w : World Ext) : World Ext :=
  match r with
  | POST_upload filename content_type pdf_bytes utcnow =>
      snd (upload_file isoformat inserted_primary_key filename content_type
             pdf_bytes utcnow w)
  | POST_analyze file_id => snd (analyze_file extract_from_pdf json_dumps file_id w)
  | POST_analyze_all => snd (analyze_all_pending extract_from_pdf json_dumps w)
  | GET_files => snd (get_all_files json_loads isoformat order_by_upload_time_desc w)
  | GET_file file_id => snd (get_file json_loads isoformat file_id w)
  | DELETE_file file_id => snd (delete_file file_id w)
  end.

Definition serve_all (rs : list request) (w : World Ext) : World Ext :=
  fold_left (fun w r => serve r w) rs w.

End Router.

Arguments serve {Ext} extract_from_pdf json_loads json_dumps isoformat
  order_by_upload_time_desc inserted_primary_key r w.
Arguments serve_all {Ext} extract_from_pdf json_loads json_dumps isoformat
  order_by_upload_time_desc inserted_primary_key rs w.

End Server.

(** ** Stand-ins for the database, the clock format and a failing model *)

Module Fixtures.
Import Routes.

(** A database that numbers its rows upwards. *)
Definition next_key (table : list UploadedFile) : Z :=
  (1 + fold_right Z.max 0 (map id table))%Z.

Fixpoint insert_newest (row : UploadedFile) (sorted : list UploadedFile)
  : list UploadedFile :=
  match sorted with
  | [] => [row]
  | r :: rest =>
      if (upload_time r <? upload_time row)%Z then row :: sorted
      else r :: insert_newest row rest
  end.

(** [ORDER BY upload_time DESC] as an insertion sort. *)
Definition newest_first (table : list UploadedFile) : list UploadedFile :=
  fold_right insert_newest [] table.

Definition isoformat (t : Z) : str := lit "T+" ++ decimal (Z.to_nat t).

(** A model that is down. *)
Definition model_down (prompt : str) (served : nat) : outcome exn (option str) * nat :=
  (Raised (OtherException (lit "ServerError") (lit "503 UNAVAILABLE")), S served).

(** A table with a settled file, an empty file and a pending one. *)
Definition mixed : list UploadedFile :=
  [mkFile 1 (lit "a.pdf") 4 (lit "application/pdf") completed 10
     Stubs.pdf_invoice (Some (lit "{}")) None;
   mkFile 2 (lit "b.pdf") 0 (lit "application/pdf") pending 20 (Some []) None None;
   mkFile 3 (lit "c.pdf") 4 (lit "application/pdf") pending 30
     Stubs.pdf_invoice None None].

Definition mixed_world (calls : nat) : World nat := mkWorld mixed calls.

Definition settled : list UploadedFile :=
  [mkFile 1 (lit "a.pdf") 4 (lit "application/pdf") completed 10
     Stubs.pdf_invoice (Some (lit "{}")) None].





End Fixtures.

(** * Properties *)

(** ** Trimming and literal prefixes *)

Module StrFacts.

Lemma lstrip_length (s : str) : List.length (lstrip s) <= List.length s.
Proof.
  induction s as [|c r IH]; simpl; [lia|].
  destruct (isspace c); simpl; lia.
Qed.

Lemma lstrip_head (s : str) (c : char) (r : str) :
  lstrip s = c :: r -> isspace c = false.
Proof.
  induction s as [|a s IH]; simpl; [discriminate|].
  destruct (isspace a) eqn:Ha; [exact IH|].
  intros H; injection H as -> _; exact Ha.
Qed.

Lemma lstrip_cons_nonspace (c : char) (r : str) :
  isspace c = false -> lstrip (c :: r) = c :: r.
Proof. intros H; simpl; now rewrite H. Qed.

Lemma lstrip_idem (s : str) : lstrip (lstrip s) = lstrip s.
Proof.
  destruct (lstrip s) as [|c r] eqn:E; [reflexivity|].
  apply lstrip_cons_nonspace, (lstrip_head s c r E).
Qed.

Lemma lstrip_app_nonspace (x : str) (c : char) (y : str) :
  isspace c = false -> lstrip (x ++ c :: y) = lstrip x ++ c :: y.
Proof.
  intros Hc; induction x as [|a x IH]; simpl.
  - now rewrite Hc.
  - destruct (isspace a); [exact IH|reflexivity].
Qed.

(** Trimming on the left sees through a prefix made of whitespace only. *)
Lemma lstrip_app_blank (x y : str) :
  lstrip x = [] -> lstrip (x ++ y) = lstrip y.
Proof.
  induction x as [|a x IH]; simpl; [reflexivity|].
  destruct (isspace a); [exact IH|discriminate].
Qed.

Lemma lstrip_app_keep (x y : str) :
  lstrip x <> [] -> lstrip (x ++ y) = lstrip x ++ y.
Proof.
  induction x as [|a x IH]; simpl; [congruence|].
  destruct (isspace a); [exact IH|reflexivity].
Qed.

Lemma rstrip_nil : rstrip [] = [].
Proof. reflexivity. Qed.

Lemma rstrip_length (s : str) : List.length (rstrip s) <= List.length s.
Proof.
  unfold rstrip. rewrite length_rev.
  rewrite <- (length_rev s). apply lstrip_length.
Qed.

Lemma rstrip_snoc_nonspace (x : str) (c : char) :
  isspace c = false -> rstrip (x ++ [c]) = x ++ [c].
Proof.
  intros Hc. unfold rstrip. rewrite rev_app_distr. simpl rev at 2.
  simpl app. rewrite (lstrip_cons_nonspace _ _ Hc).
  simpl. now rewrite rev_involutive.
Qed.

Lemma rstrip_cons_nonspace (c : char) (r : str) :
  isspace c = false -> rstrip (c :: r) = c :: rstrip r.
Proof.
  intros Hc. unfold rstrip. simpl rev.
  change (rev r ++ [c]) with (rev r ++ c :: []).
  rewrite (lstrip_app_nonspace _ _ _ Hc), rev_app_distr. reflexivity.
Qed.

Lemma rstrip_idem (s : str) : rstrip (rstrip s) = rstrip s.
Proof.
  unfold rstrip. now rewrite rev_involutive, lstrip_idem.
Qed.

Lemma strip_length (s : str) : List.length (strip s) <= List.length s.
Proof.
  unfold strip. pose proof (rstrip_length (lstrip s)).
  pose proof (lstrip_length s). lia.
Qed.

Lemma strip_cases (s : str) :
  strip s = [] \/
  exists c r, isspace c = false /\ lstrip s = c :: r /\ strip s = c :: rstrip r.
Proof.
  unfold strip. destruct (lstrip s) as [|c r] eqn:E.
  - now left.
  - right. exists c, r. pose proof (lstrip_head s c r E) as Hc.
    now rewrite (rstrip_cons_nonspace _ _ Hc).
Qed.

Lemma strip_trimmed (s : str) : trimmed (strip s).
Proof.
  unfold trimmed.
  destruct (strip_cases s) as [-> | (c & r & Hc & _ & ->)]; [reflexivity|].
  unfold strip. rewrite (lstrip_cons_nonspace _ _ Hc).
  now rewrite (rstrip_cons_nonspace _ _ Hc), rstrip_idem.
Qed.

Lemma trimmed_lstrip (t : str) : trimmed t -> lstrip t = t.
Proof.
  unfold trimmed. intros H.
  destruct (strip_cases t) as [E | (c & r & Hc & _ & E)]; rewrite E in H; subst t.
  - reflexivity.
  - now apply lstrip_cons_nonspace.
Qed.

Lemma trimmed_rstrip (t : str) : trimmed t -> rstrip t = t.
Proof.
  intros H. pose proof (trimmed_lstrip t H) as HL.
  unfold trimmed, strip in H. now rewrite HL in H.
Qed.

Lemma strip_prefix_app (p x : str) : strip_prefix p (p ++ x) = Some x.
Proof.
  induction p as [|a p IH]; simpl; [now destruct x|].
  now rewrite N.eqb_refl.
Qed.

Lemma strip_prefix_Some (p s r : str) :
  strip_prefix p s = Some r -> s = p ++ r.
Proof.
  revert s; induction p as [|a p IH]; intros s; simpl.
  - destruct s; intros H; now injection H as ->.
  - destruct s as [|b s]; [discriminate|].
    destruct (N.eqb_spec a b) as [->|]; [|discriminate].
    intros H. now rewrite (IH _ H).
Qed.

Lemma strip_suffix_app (p x : str) : strip_suffix p (x ++ p) = Some x.
Proof.
  unfold strip_suffix. rewrite rev_app_distr, strip_prefix_app.
  simpl. now rewrite rev_involutive.
Qed.

Lemma strip_suffix_Some (p s r : str) :
  strip_suffix p s = Some r -> s = r ++ p.
Proof.
  unfold strip_suffix.
  destruct (strip_prefix (rev p) (rev s)) as [x|] eqn:E; [|discriminate].
  simpl. intros H; injection H as <-.
  apply strip_prefix_Some in E.
  rewrite <- (rev_involutive s), E, rev_app_distr. now rewrite rev_involutive.
Qed.

Lemma startswith_true (p s : str) :
  startswith p s = true -> exists r, strip_prefix p s = Some r /\ s = p ++ r.
Proof.
  unfold startswith. destruct (strip_prefix p s) as [r|] eqn:E; [|discriminate].
  intros _. exists r. split; [reflexivity|]. now apply strip_prefix_Some.
Qed.

Lemma startswith_false (p s : str) :
  startswith p s = false -> strip_prefix p s = None.
Proof. unfold startswith. now destruct (strip_prefix p s). Qed.

Lemma endswith_true (p s : str) :
  endswith p s = true -> exists r, strip_suffix p s = Some r /\ s = r ++ p.
Proof.
  unfold endswith. destruct (strip_suffix p s) as [r|] eqn:E; [|discriminate].
  intros _. exists r. split; [reflexivity|]. now apply strip_suffix_Some.
Qed.

Lemma endswith_false (p s : str) :
  endswith p s = false -> strip_suffix p s = None.
Proof. unfold endswith. now destruct (strip_suffix p s). Qed.

(** A trimmed string does not end with a whitespace character. *)
Lemma trimmed_last (x : str) (c : char) :
  isspace c = true -> trimmed (x ++ [c]) -> False.
Proof.
  intros Hc H. apply trimmed_rstrip in H.
  assert (L : List.length (rstrip (x ++ [c])) <= List.length x).
  { unfold rstrip. rewrite rev_app_distr. simpl rev at 2. simpl app.
    simpl lstrip. rewrite Hc, length_rev.
    rewrite <- (length_rev x). apply lstrip_length. }
  rewrite H, length_app in L. simpl in L. lia.
Qed.

End StrFacts.
Import StrFacts.

(** ** Response normalizer *)

Module NormalizerFacts.

Lemma fence_json_split : fence_json = fence ++ lit "json".
Proof. reflexivity. Qed.

Lemma startswith_fence_json (s : str) :
  startswith fence_json s = true -> startswith fence s = true.
Proof.
  intros H. apply startswith_true in H as (r & _ & ->).
  unfold startswith. rewrite fence_json_split, <- app_assoc.
  now rewrite strip_prefix_app.
Qed.

Lemma re_sub_leading_miss (p s : str) :
  startswith p s = false -> re_sub_leading p s = s.
Proof.
  intros H. unfold re_sub_leading. now rewrite (startswith_false _ _ H).
Qed.

Lemma re_sub_leading_length (p s : str) :
  List.length (re_sub_leading p s) <= List.length s.
Proof.
  unfold re_sub_leading. destruct (strip_prefix p s) as [r|] eqn:E; [|lia].
  apply strip_prefix_Some in E. subst s. rewrite length_app.
  pose proof (lstrip_length r). lia.
Qed.

Lemma re_sub_leading_hit (p s : str) :
  startswith p s = true ->
  List.length (re_sub_leading p s) + List.length p <= List.length s.
Proof.
  intros H. apply startswith_true in H as (r & E & ->).
  unfold re_sub_leading. rewrite E, length_app.
  pose proof (lstrip_length r). lia.
Qed.

Lemma re_sub_trailing_fence_length (s : str) :
  List.length (re_sub_trailing_fence s) <= List.length s.
Proof.
  unfold re_sub_trailing_fence.
  destruct (strip_suffix fence s) as [r|] eqn:E.
  - apply strip_suffix_Some in E. subst s. rewrite length_app.
    pose proof (rstrip_length r). lia.
  - destruct (strip_suffix (fence ++ newline) s) as [r|] eqn:E'; [|lia].
    apply strip_suffix_Some in E'. subst s. rewrite !length_app.
    pose proof (rstrip_length r). simpl. lia.
Qed.

Lemma re_sub_trailing_fence_hit (s : str) :
  endswith fence s = true ->
  List.length (re_sub_trailing_fence s) + 3 <= List.length s.
Proof.
  intros H. apply endswith_true in H as (r & E & ->).
  unfold re_sub_trailing_fence. rewrite E, length_app.
  pose proof (rstrip_length r). simpl. lia.
Qed.

(** On a trimmed string without a closing fence the third substitution
    finds nothing: the newline alternative of [$] needs a final newline. *)
Lemma re_sub_trailing_fence_miss (t : str) :
  trimmed t -> endswith fence t = false -> re_sub_trailing_fence t = t.
Proof.
  intros Ht H. unfold re_sub_trailing_fence.
  rewrite (endswith_false _ _ H).
  destruct (strip_suffix (fence ++ newline) t) as [r|] eqn:E; [|reflexivity].
  apply strip_suffix_Some in E. exfalso.
  apply (trimmed_last (r ++ fence) 10%N); [reflexivity|].
  change (trimmed ((r ++ fence) ++ newline)).
  now rewrite <- app_assoc, <- E.
Qed.

Lemma clean_json_response_trimmed (s : str) : trimmed (clean_json_response s).
Proof. apply strip_trimmed. Qed.

Lemma clean_json_response_length (s : str) :
  List.length (clean_json_response s) <= List.length s.
Proof.
  unfold clean_json_response.
  repeat first
    [ eapply Nat.le_trans; [apply strip_length|]
    | eapply Nat.le_trans; [apply re_sub_trailing_fence_length|]
    | eapply Nat.le_trans; [apply re_sub_leading_length|] ].
  apply Nat.le_refl.
Qed.

(** Clean input comes back as it is. *)
Lemma clean_json_response_fixed (t : str) :
  trimmed t -> startswith fence t = false -> endswith fence t = false ->
  clean_json_response t = t.
Proof.
  intros Ht Hs He. unfold clean_json_response.
  assert (Hj : startswith fence_json t = false).
  { destruct (startswith fence_json t) eqn:E; [|reflexivity].
    apply startswith_fence_json in E. congruence. }
  rewrite Ht, (re_sub_leading_miss _ _ Hj).
  rewrite Ht, (re_sub_leading_miss _ _ Hs).
  rewrite Ht, (re_sub_trailing_fence_miss _ Ht He).
  exact Ht.
Qed.

(** A leading fence left in the text is removed by the next pass. *)
Lemma clean_json_response_shrinks_leading (t : str) :
  trimmed t -> startswith fence t = true ->
  List.length (clean_json_response t) < List.length t.
Proof.
  intros Ht Hs. unfold clean_json_response. rewrite Ht.
  destruct (startswith fence_json t) eqn:Hj.
  - pose proof (re_sub_leading_hit _ _ Hj) as H7.
    change (List.length fence_json) with 7 in H7.
    remember (re_sub_leading fence_json t) as b.
    pose proof (strip_length b).
    pose proof (re_sub_leading_length fence (strip b)).
    remember (re_sub_leading fence (strip b)) as c.
    pose proof (strip_length c).
    pose proof (re_sub_trailing_fence_length (strip c)).
    pose proof (strip_length (re_sub_trailing_fence (strip c))). lia.
  - rewrite (re_sub_leading_miss _ _ Hj), Ht.
    pose proof (re_sub_leading_hit _ _ Hs) as H7.
    change (List.length fence) with 3 in H7.
    remember (re_sub_leading fence t) as c.
    pose proof (strip_length c).
    pose proof (re_sub_trailing_fence_length (strip c)).
    pose proof (strip_length (re_sub_trailing_fence (strip c))). lia.
Qed.

(** So is a closing fence. *)
Lemma clean_json_response_shrinks_trailing (t : str) :
  trimmed t -> startswith fence t = false -> endswith fence t = true ->
  List.length (clean_json_response t) < List.length t.
Proof.
  intros Ht Hs He. unfold clean_json_response.
  assert (Hj : startswith fence_json t = false).
  { destruct (startswith fence_json t) eqn:E; [|reflexivity].
    apply startswith_fence_json in E. congruence. }
  rewrite Ht, (re_sub_leading_miss _ _ Hj).
  rewrite Ht, (re_sub_leading_miss _ _ Hs), Ht.
  pose proof (strip_length (re_sub_trailing_fence t)).
  pose proof (re_sub_trailing_fence_hit _ He). lia.
Qed.

End NormalizerFacts.
Import NormalizerFacts.

Module FencedInput.

Lemma trimmed_between (c d : char) (x : str) :
  isspace c = false -> isspace d = false -> trimmed (c :: x ++ [d]).
Proof.
  intros Hc Hd. unfold trimmed, strip.
  rewrite (lstrip_cons_nonspace _ _ Hc).
  change (c :: x ++ [d]) with ((c :: x) ++ [d]).
  now apply rstrip_snoc_nonspace.
Qed.

Lemma trimmed_before_fence (c : char) (x : str) :
  isspace c = false -> trimmed ((c :: x) ++ fence).
Proof.
  intros Hc.
  replace ((c :: x) ++ fence) with (c :: (x ++ [96; 96]%N) ++ [96%N]).
  - now apply trimmed_between.
  - simpl. now rewrite <- app_assoc.
Qed.

Lemma trimmed_fenced (t : str) : trimmed (fence_json ++ t ++ fence).
Proof.
  change (fence_json ++ t ++ fence)
    with ((96%N :: (lit "``json" ++ t)) ++ fence).
  now apply trimmed_before_fence.
Qed.

(** A text that does not open with a fence, followed by the closing fence,
    opens with a fence only when it is one or two backticks. *)
Lemma short_backticks (x : str) :
  x <> [] -> startswith fence x = false -> startswith fence (x ++ fence) = true ->
  x = [96%N] \/ x = [96; 96]%N.
Proof.
  intros Hx Hn Hy.
  change fence with [96; 96; 96]%N in *.
  destruct x as [|a [|b [|c x]]]; [congruence | | |];
    unfold startswith in *; cbn [strip_prefix app] in *.
  - destruct (N.eqb_spec 96 a) as [<-|]; [now left|discriminate].
  - destruct (N.eqb_spec 96 a) as [<-|]; [|discriminate].
    destruct (N.eqb_spec 96 b) as [<-|]; [now right|discriminate].
  - destruct (N.eqb_spec 96 a) as [<-|]; [|discriminate].
    destruct (N.eqb_spec 96 b) as [<-|]; [|discriminate].
    destruct (N.eqb_spec 96 c) as [<-|]; discriminate.
Qed.

End FencedInput.
Import FencedInput.

Example clean_fenced :
  clean_json_response (lit "```json {} ```") = lit "{}".
Proof. reflexivity. Qed.

Example clean_bare_fence :
  clean_json_response (lit "  ``` [1] ```  ") = lit "[1]".
Proof. reflexivity. Qed.

Example clean_raw :
  clean_json_response (lit " {} ") = lit "{}".
Proof. reflexivity. Qed.

(** C2, as stated, fails: a text that ends with two closing fences loses one
    fence at each pass. *)
Lemma clean_json_response_not_idempotent :
  clean_json_response (clean_json_response (lit "x``````"))
  <> clean_json_response (lit "x``````").
Proof. vm_compute. discriminate. Qed.

(** C2 (amended): the normalizer is idempotent on [s] exactly when the
    normalized text neither starts nor ends with a fence marker; each pass
    removes one opening and one closing fence. *)
Theorem clean_json_response_idempotent_iff (s : str) :
  clean_json_response (clean_json_response s) = clean_json_response s
  <-> startswith fence (clean_json_response s) = false
      /\ endswith fence (clean_json_response s) = false.
Proof.
  pose proof (clean_json_response_trimmed s) as Ht.
  remember (clean_json_response s) as t. clear Heqt s.
  split.
  - intros E.
    destruct (startswith fence t) eqn:Hs.
    + pose proof (clean_json_response_shrinks_leading t Ht Hs) as L.
      rewrite E in L. lia.
    + split; [reflexivity|].
      destruct (endswith fence t) eqn:He; [|reflexivity].
      pose proof (clean_json_response_shrinks_trailing t Ht Hs He) as L.
      rewrite E in L. lia.
  - intros [Hs He]. now apply clean_json_response_fixed.
Qed.

(** C3, as stated, fails: whitespace around the inner content is trimmed
    away with the fence markers. *)
Lemma clean_json_response_fenced_changes_inner :
  clean_json_response (fence_json ++ lit " {} " ++ fence) <> lit " {} ".
Proof. vm_compute. discriminate. Qed.

(** C3 (amended): for every [t] that, past its leading whitespace, does not
    itself open with a fence marker, the normalizer applied to [t] wrapped
    in a json fence returns [t] with the surrounding whitespace trimmed; so
    a trimmed [t] comes back unchanged. *)
Theorem clean_json_response_fenced (t : str) :
  startswith fence (lstrip t) = false ->
  clean_json_response (fence_json ++ t ++ fence) = strip t.
Proof.
  intros Hn.
  assert (E0 : clean_json_response (fence_json ++ t ++ fence)
               = strip (re_sub_trailing_fence (strip
                   (re_sub_leading fence (strip (lstrip (t ++ fence))))))).
  { unfold clean_json_response. rewrite (trimmed_fenced t).
    unfold re_sub_leading at 2. now rewrite strip_prefix_app. }
  rewrite E0. clear E0.
  destruct (lstrip t) as [|c x] eqn:EL.
  - replace (strip t) with (@nil char) by (unfold strip; now rewrite EL).
    now rewrite (lstrip_app_blank _ _ EL).
  - assert (Hc : isspace c = false) by exact (lstrip_head _ _ _ EL).
    assert (Es : strip t = rstrip (c :: x)) by (unfold strip; now rewrite EL).
    rewrite lstrip_app_keep by congruence. rewrite EL.
    rewrite (trimmed_before_fence c x Hc).
    destruct (startswith fence ((c :: x) ++ fence)) eqn:Hy.
    + assert (Hx : c :: x <> []) by discriminate.
      rewrite Es.
      destruct (short_backticks _ Hx Hn Hy) as [E | E]; now rewrite E.
    + rewrite (re_sub_leading_miss _ _ Hy).
      rewrite (trimmed_before_fence c x Hc).
      unfold re_sub_trailing_fence. rewrite strip_suffix_app, <- Es.
      apply strip_trimmed.
Qed.

Lemma clean_json_response_fenced_witness :
  clean_json_response (fence_json ++ lit " {} " ++ fence) = lit "{}".
Proof. apply (clean_json_response_fenced (lit " {} ")). reflexivity. Defined.

(** ** PDF text extractor and extraction orchestrator *)

Ltac unfold_eff :=
  unfold Routes.as_exception, try_except, bind, lift, ret, raise, get, modify in *.

Module ServicesFacts.
Import Services.

Section Collaborators.

Variable Remote : Type.
Variable fitz_open : content -> outcome exn (list Page).
Variable OCR_AVAILABLE : bool.
Variable generate_content : str -> Remote -> outcome exn (option str) * Remote.
Variable json_loads : str -> outcome exn json.

Abbreviation extract_text_from_pdf :=
  (extract_text_from_pdf fitz_open OCR_AVAILABLE).
Abbreviation extract_from_pdf :=
  (extract_from_pdf fitz_open OCR_AVAILABLE generate_content json_loads).

Lemma page_text_no_ocr (page : Page) : page_text OCR_AVAILABLE false page = get_text page.
Proof. reflexivity. Qed.

(** With OCR disabled the loop concatenates the embedded text of the
    pages, in page order, each followed by a newline. *)
Lemma read_pages_no_ocr (pages : list Page) (text : str) :
  read_pages OCR_AVAILABLE false pages text
  = text ++ flat_map (fun page => get_text page ++ nl) pages.
Proof.
  revert text; induction pages as [|page rest IH]; intros text; simpl.
  - now rewrite app_nil_r.
  - rewrite IH, page_text_no_ocr. now rewrite <- !app_assoc.
Qed.

(** The extractor raises nothing but [RuntimeError]. *)
Lemma extract_text_from_pdf_raises (pdf_bytes : content) (use_ocr : bool) (e : exn) :
  extract_text_from_pdf pdf_bytes use_ocr = Raised e ->
  exists msg, e = RuntimeError msg.
Proof.
  unfold Services.extract_text_from_pdf.
  destruct (fitz_open pdf_bytes) as [pages|e0].
  - destruct (_ || _); intros H; [|discriminate].
    injection H as <-. eauto.
  - intros H. injection H as <-. eauto.
Qed.

(** C7: with OCR disabled, a document whose combined page text is, once
    trimmed, shorter than 10 characters (empty included) makes
    [extract_text_from_pdf] raise a [RuntimeError]; so does a document that
    the parser rejects, whatever [use_ocr] is; in both cases the message is
    the underlying one behind a fixed prefix. *)
Theorem extract_text_from_pdf_fails (pdf_bytes : content) (use_ocr : bool) :
  match fitz_open pdf_bytes with
  | Raised _ => True
  | Returned pages =>
      use_ocr = false /\
      List.length (strip (flat_map (fun page => get_text page ++ nl) pages)) < 10
  end ->
  extract_text_from_pdf pdf_bytes use_ocr
  = Raised (RuntimeError
      (lit "PDF text extraction failed: " ++
       match fitz_open pdf_bytes with
       | Raised e => exn_str e
       | Returned _ =>
           lit "No text extracted from PDF. PDF might be empty, corrupted, or require OCR."
       end)).
Proof.
  unfold Services.extract_text_from_pdf.
  destruct (fitz_open pdf_bytes) as [pages|e]; [|reflexivity].
  intros [-> Hlen]. rewrite read_pages_no_ocr. simpl app.
  apply Nat.ltb_lt in Hlen. rewrite Hlen, orb_true_r. reflexivity.
Qed.

(** C6: when the extractor fails, the orchestrator returns the failure
    result tagged "PDF processing failed" with the extractor's message, and
    leaves the world as it was: no prompt is sent to the model. *)
Theorem extract_from_pdf_extractor_failure
  (pdf_bytes : content) (use_ocr : bool) (e : exn) (w : World Remote) :
  extract_text_from_pdf pdf_bytes use_ocr = Raised e ->
  extract_from_pdf pdf_bytes use_ocr w
  = (Returned {| success := Some false;
                 data := None;
                 error := Some (lit "PDF processing failed");
                 details := Some (exn_str e);
                 gemini_response := None;
                 parse_error := None;
                 raw_text_preview := None;
                 type_ := None |},
     w).
Proof.
  intros H. destruct (extract_text_from_pdf_raises _ _ _ H) as [msg ->].
  unfold Services.extract_from_pdf. unfold_eff.
  rewrite H. reflexivity.
Qed.

(** C4: when the extractor yields [text] and the model's reply, once
    normalized, decodes to [extracted], the orchestrator returns the success
    result with that value and the first 200 characters of [text]; the one
    prompt sent is logged. *)
Theorem extract_from_pdf_success
  (pdf_bytes : content) (use_ocr : bool) (text reply : str) (extracted : json)
  (w : World Remote) (r : Remote) :
  extract_text_from_pdf pdf_bytes use_ocr = Returned text ->
  generate_content (prompt_of text) (remote w) = (Returned (Some reply), r) ->
  json_loads (clean_json_response reply) = Returned extracted ->
  extract_from_pdf pdf_bytes use_ocr w
  = (Returned {| success := Some true;
                 data := Some extracted;
                 error := None;
                 details := None;
                 gemini_response := None;
                 parse_error := None;
                 raw_text_preview := Some (firstn 200 text);
                 type_ := None |},
     mkWorld r (prompts w ++ [prompt_of text])).
Proof.
  intros Ht Hg Hj.
  unfold Services.extract_from_pdf, generate. unfold_eff.
  rewrite Ht, Hg. simpl. rewrite Hj. reflexivity.
Qed.


(** The orchestrator always returns a result: no exception leaves it. *)
Lemma extract_from_pdf_returns (pdf_bytes : content) (use_ocr : bool) (w : World Remote) :
  exists result w', extract_from_pdf pdf_bytes use_ocr w = (Returned result, w').
Proof.
  unfold Services.extract_from_pdf, generate, response_text. unfold_eff.
  destruct (extract_text_from_pdf pdf_bytes use_ocr) as [text|[]];
    try (simpl; eauto; fail).
  destruct (generate_content (prompt_of text) (remote w)) as [[[reply|]|[]] r];
    try (simpl; eauto; fail).
  simpl.
  destruct (json_loads (clean_json_response reply)) as [v|[]]; simpl; eauto.
Qed.

End Collaborators.

End ServicesFacts.

Lemma extract_text_from_pdf_fails_witness :
  Services.extract_text_from_pdf Stubs.fitz_open false Stubs.pdf_scanned false
  = Raised (RuntimeError (lit
      "PDF text extraction failed: No text extracted from PDF. PDF might be empty, corrupted, or require OCR.")).
Proof.
  apply (ServicesFacts.extract_text_from_pdf_fails
           Stubs.fitz_open false Stubs.pdf_scanned false).
  simpl. split; [reflexivity|lia].
Defined.

Lemma extract_from_pdf_extractor_failure_witness :
  Services.extract_from_pdf Stubs.fitz_open false Stubs.generate_content
    Stubs.json_loads Stubs.pdf_corrupt false (Stubs.fresh 0)
  = (Returned {| success := Some false;
                 data := None;
                 error := Some (lit "PDF processing failed");
                 details := Some (lit "PDF text extraction failed: Failed to open stream");
                 gemini_response := None;
                 parse_error := None;
                 raw_text_preview := None;
                 type_ := None |},
     Stubs.fresh 0).
Proof.
  apply (ServicesFacts.extract_from_pdf_extractor_failure nat
           Stubs.fitz_open false Stubs.generate_content Stubs.json_loads
           Stubs.pdf_corrupt false
           (RuntimeError (lit "PDF text extraction failed: Failed to open stream"))).
  reflexivity.
Defined.

Lemma extract_from_pdf_success_witness :
  fst (Services.extract_from_pdf Stubs.fitz_open false Stubs.generate_content
         Stubs.json_loads Stubs.pdf_invoice false (Stubs.fresh 1))
  = Returned {| success := Some true;
                data := Some (JObject []);
                error := None;
                details := None;
                gemini_response := None;
                parse_error := None;
                raw_text_preview := Some (lit "Invoice INV-1" ++ Services.nl ++ lit "Total 10 USD");
                type_ := None |}.
Proof.
  rewrite (ServicesFacts.extract_from_pdf_success nat
             Stubs.fitz_open false Stubs.generate_content Stubs.json_loads
             Stubs.pdf_invoice false
             (lit "Invoice INV-1" ++ Services.nl ++ lit "Total 10 USD")
             (lit "```json {} ```") (JObject []) (Stubs.fresh 1) 2);
    reflexivity.
Defined.



(** ** File status tracker *)

Module TableFacts.
Import Routes.

Create HintDb table.

Lemma values_status_keeps_id (s : Status) : keeps_id (values_status s).
Proof. now intros row. Qed.

Lemma values_completed_keeps_id (d : str) : keeps_id (values_completed d).
Proof. now intros row. Qed.

Lemma values_failed_keeps_id (m : str) : keeps_id (values_failed m).
Proof. now intros row. Qed.

#[export] Hint Resolve values_status_keeps_id values_completed_keeps_id
  values_failed_keeps_id : table.

Lemma select_map (f : UploadedFile -> UploadedFile) (j : Z) (table : list UploadedFile) :
  keeps_id f ->
  select_first_by_id j (map f table) = option_map f (select_first_by_id j table).
Proof.
  intros Hf. unfold select_first_by_id.
  induction table as [|row rest IH]; simpl; [reflexivity|].
  rewrite Hf. destruct (id row =? j)%Z; [reflexivity|exact IH].
Qed.

Lemma select_In (j : Z) (table : list UploadedFile) (row : UploadedFile) :
  select_first_by_id j table = Some row -> In row table /\ id row = j.
Proof.
  unfold select_first_by_id. intros H. apply find_some in H as [Hin Hid].
  split; [exact Hin|]. now apply Z.eqb_eq.
Qed.

Lemma In_select (table : list UploadedFile) (row : UploadedFile) :
  In row table -> exists row', select_first_by_id (id row) table = Some row'.
Proof.
  unfold select_first_by_id. intros Hin.
  destruct (find _ table) as [row'|] eqn:E; [eauto|].
  pose proof (find_none _ _ E _ Hin) as H. simpl in H.
  rewrite Z.eqb_refl in H. discriminate.
Qed.

Lemma update_twice (i : Z) (f g : UploadedFile -> UploadedFile) (table : list UploadedFile) :
  keeps_id g ->
  update_where_id i f (update_where_id i g table)
  = map (fun row => if (id row =? i)%Z then f (g row) else row) table.
Proof.
  intros Hg. unfold update_where_id. rewrite map_map.
  apply map_ext. intros row.
  destruct (id row =? i)%Z eqn:E; [now rewrite Hg, E|now rewrite E].
Qed.

Lemma filter_ids_NoDup (p : UploadedFile -> bool) (table : list UploadedFile) :
  NoDup (map id table) -> NoDup (map id (filter p table)).
Proof.
  induction table as [|row rest IH]; simpl; [trivial|].
  intros H. inversion H as [|? ? Hnot Hrest]; subst.
  destruct (p row); simpl; [|now apply IH].
  constructor; [|now apply IH].
  intros Hin. apply Hnot. apply in_map_iff in Hin as (r & Hr & Hin).
  apply filter_In in Hin as [Hin _]. apply in_map_iff. eauto.
Qed.

End TableFacts.
Import TableFacts.

Module RoutesFacts.
Import Routes.

Section Handlers.

Variable Ext : Type.
Variable extract_from_pdf : content -> M Ext exn ExtractionResult.
Variable json_dumps : json -> str.

Abbreviation analyze_file := (analyze_file extract_from_pdf json_dumps).
Abbreviation sweep_one := (sweep_one extract_from_pdf json_dumps).
Abbreviation sweep := (sweep extract_from_pdf json_dumps).
Abbreviation analyze_all_pending := (analyze_all_pending extract_from_pdf json_dumps).
Abbreviation outcomes := (outcomes extract_from_pdf).
Abbreviation ext_after := (ext_after extract_from_pdf).
Abbreviation final_values := (final_values json_dumps).
Abbreviation turn_row := (turn_row json_dumps).
Abbreviation row_after := (row_after json_dumps).

Lemma final_values_keeps_id (o : outcome exn ExtractionResult) :
  keeps_id (final_values o).
Proof.
  intros row. destruct o as [extracted|e]; simpl; [|reflexivity].
  now destruct (dict_get (success extracted) false).
Qed.

Lemma turn_row_keeps_id (i : Z) (o : outcome exn ExtractionResult) :
  keeps_id (turn_row i o).
Proof.
  intros row. unfold Routes.turn_row.
  destruct (id row =? i)%Z; [|reflexivity].
  now rewrite final_values_keeps_id.
Qed.

Lemma row_after_keeps_id (files : list UploadedFile)
  (outs : list (outcome exn ExtractionResult)) :
  keeps_id (row_after files outs).
Proof.
  revert outs; induction files as [|file rest IH]; intros outs row; simpl;
    [reflexivity|].
  destruct outs as [|o outs]; [reflexivity|].
  now rewrite IH, turn_row_keeps_id.
Qed.

(** The final status is never [analyzing]. *)
Lemma final_values_status (o : outcome exn ExtractionResult) (row : UploadedFile) :
  status (final_values o row) = final_status o.
Proof.
  destruct o as [extracted|e]; simpl; [|reflexivity].
  unfold status_of. now destruct (dict_get (success extracted) false).
Qed.

Lemma final_status_settled (o : outcome exn ExtractionResult) :
  final_status o = completed \/ final_status o = failed.
Proof.
  destruct o as [extracted|e]; simpl; [|now right].
  unfold status_of. destruct (dict_get (success extracted) false); auto.
Qed.

(** One analysis of a row, as one of the three transitions. *)
Lemma turn_row_transition (i : Z) (o : outcome exn ExtractionResult) (row : UploadedFile) :
  transition row (turn_row i o row).
Proof.
  unfold Routes.turn_row. destruct (id row =? i)%Z; [|now apply untouched].
  destruct o as [extracted|e]; simpl.
  - destruct (dict_get (success extracted) false).
    + now eapply to_completed.
    + now eapply to_failed.
  - now eapply to_failed.
Qed.

(** The two updates of one turn, as one map over the table. *)
Lemma turn_updates (i : Z) (o : outcome exn ExtractionResult) (table : list UploadedFile) :
  update_where_id i (final_values o) (update_where_id i (values_status analyzing) table)
  = map (turn_row i o) table.
Proof. apply update_twice. auto with table. Qed.

(** A run of the single-file route on a stored file with content. *)
Lemma analyze_file_run (file_id : Z) (w : World Ext) (row : UploadedFile)
  (o : outcome exn ExtractionResult) (x : Ext) :
  select_first_by_id file_id (db w) = Some row ->
  falsy (file_content row) = false ->
  extract_from_pdf (file_content row) (ext w) = (o, x) ->
  analyze_file file_id w
  = (match o with
     | Returned extracted =>
         Returned (mkAnalyzeResponse file_id (status_of extracted) extracted
                     (if dict_get (success extracted) false
                      then lit "Analysis completed successfully"
                      else lit "Analysis failed"))
     | Raised e => Raised (HTTPException 500 (exn_str e))
     end,
     mkWorld (map (turn_row file_id o) (db w)) x).
Proof.
  intros Hsel Hcontent Hext. rewrite <- turn_updates.
  unfold Routes.analyze_file, store_result, call_extract, execute_update.
  unfold_eff. rewrite Hsel, Hcontent. simpl. rewrite Hext.
  destruct o as [extracted|e]; simpl; [|reflexivity].
  now destruct (dict_get (success extracted) false).
Qed.

(** The two rejections leave the world as it was. *)
Lemma analyze_file_not_found_run (file_id : Z) (w : World Ext) :
  select_first_by_id file_id (db w) = None ->
  analyze_file file_id w = (Raised (HTTPException 404 (lit "File not found")), w).
Proof.
  intros Hsel. unfold Routes.analyze_file. unfold_eff. now rewrite Hsel.
Qed.

Lemma analyze_file_no_content_run (file_id : Z) (w : World Ext) (row : UploadedFile) :
  select_first_by_id file_id (db w) = Some row ->
  falsy (file_content row) = true ->
  analyze_file file_id w
  = (Raised (HTTPException 400 (lit "File content not found")), w).
Proof.
  intros Hsel Hc. unfold Routes.analyze_file. unfold_eff. now rewrite Hsel, Hc.
Qed.

(** One turn of the bulk loop. *)
Lemma sweep_one_run (file : UploadedFile) (analyzed_count : nat) (results : list Entry)
  (w : World Ext) (o : outcome exn ExtractionResult) (x : Ext) :
  extract_from_pdf (file_content file) (ext w) = (o, x) ->
  sweep_one file analyzed_count results w
  = (Returned ((if status_eqb (final_status o) completed
                then S analyzed_count else analyzed_count),
               results ++ [entry_of file o]),
     mkWorld (map (turn_row (id file) o) (db w)) x).
Proof.
  intros Hext. rewrite <- turn_updates.
  unfold Routes.sweep_one, store_result, call_extract, execute_update.
  unfold_eff. simpl. rewrite Hext.
  destruct o as [extracted|e]; simpl; [|reflexivity].
  unfold entry_of, final_status, status_of.
  now destruct (dict_get (success extracted) false).
Qed.

Lemma outcomes_length (files : list UploadedFile) (x : Ext) :
  List.length (outcomes files x) = List.length files.
Proof.
  revert x; induction files as [|file rest IH]; intros x; simpl; [reflexivity|].
  destruct (extract_from_pdf (file_content file) x) as [o x']. simpl.
  now rewrite IH.
Qed.

(** The whole loop: the count, the entries, the table and the orchestrator's
    world it ends with. *)
Lemma sweep_run (files : list UploadedFile) :
  forall (analyzed_count : nat) (results : list Entry) (w : World Ext),
  sweep files analyzed_count results w
  = (Returned
       (analyzed_count
        + List.length (filter (fun o => status_eqb (final_status o) completed)
                         (outcomes files (ext w))),
        results ++ map (fun p => entry_of (fst p) (snd p))
                     (combine files (outcomes files (ext w)))),
     mkWorld (map (row_after files (outcomes files (ext w))) (db w))
             (ext_after files (ext w))).
Proof.
  induction files as [|file rest IH]; intros c res w.
  - simpl. unfold_eff. rewrite Nat.add_0_r, app_nil_r, map_id. now destruct w.
  - simpl. destruct (extract_from_pdf (file_content file) (ext w)) as [o x] eqn:Hext.
    unfold bind. rewrite (sweep_one_run file c res w o x Hext).
    cbn [fst snd]. rewrite IH. cbn [db ext fst snd].
    rewrite map_map, <- app_assoc. cbn [combine map filter app fst snd].
    destruct (status_eqb (final_status o) completed);
      cbn [List.length Nat.add]; rewrite ?Nat.add_succ_r; reflexivity.
Qed.

(** The bulk route never raises; on a non-empty queue it reports the loop. *)
Lemma analyze_all_pending_run (w : World Ext) :
  let pending_files := select_pending (db w) in
  let outs := outcomes pending_files (ext w) in
  exists resp,
    analyze_all_pending w
    = (Returned resp,
       mkWorld (map (row_after pending_files outs) (db w))
               (ext_after pending_files (ext w)))
    /\ (pending_files <> [] ->
        resp = mkSweepResponse
                 (lit "Analysis completed for "
                  ++ decimal (List.length
                       (filter (fun o => status_eqb (final_status o) completed) outs))
                  ++ lit " files")
                 (List.length
                    (filter (fun o => status_eqb (final_status o) completed) outs))
                 (Some (List.length pending_files))
                 (Some (map (fun p => entry_of (fst p) (snd p))
                          (combine pending_files outs)))).
Proof.
  intros pending_files outs. subst outs.
  unfold Routes.analyze_all_pending. unfold_eff. fold pending_files.
  destruct pending_files as [|file rest] eqn:E.
  - eexists. split; [|congruence]. simpl. rewrite map_id. now destruct w.
  - rewrite sweep_run. cbn [fst snd]. eexists. split; [reflexivity|].
    intros _. reflexivity.
Qed.

Lemma row_after_other (files : list UploadedFile)
  (outs : list (outcome exn ExtractionResult)) (row : UploadedFile) :
  ~ In (id row) (map id files) -> row_after files outs row = row.
Proof.
  revert outs row; induction files as [|file rest IH]; intros outs row Hn;
    [reflexivity|].
  destruct outs as [|o outs]; [reflexivity|]. simpl in *.
  unfold Routes.turn_row.
  destruct (Z.eqb_spec (id row) (id file)) as [E|_]; [exfalso; auto|].
  apply IH. auto.
Qed.

(** With distinct ids, the file at position [k] of the queue is written by
    turn [k] and by no other. *)
Lemma row_after_at (files : list UploadedFile) :
  forall (outs : list (outcome exn ExtractionResult)) (k : nat)
         (file row : UploadedFile) (o : outcome exn ExtractionResult),
  NoDup (map id files) ->
  nth_error files k = Some file -> nth_error outs k = Some o ->
  id row = id file ->
  row_after files outs row = final_values o (values_status analyzing row).
Proof.
  induction files as [|f0 rest IH]; intros outs k file row o Hnd Hf Ho Hid.
  - destruct k; discriminate.
  - inversion Hnd as [|? ? Hnot Hrest]; subst.
    destruct outs as [|o0 outs]; [destruct k; discriminate|].
    destruct k as [|k]; simpl in Hf, Ho.
    + injection Hf as ->. injection Ho as ->. simpl.
      unfold Routes.turn_row at 1. rewrite Hid, Z.eqb_refl.
      apply row_after_other. rewrite final_values_keeps_id. simpl.
      now rewrite Hid.
    + simpl. unfold Routes.turn_row at 1.
      destruct (Z.eqb_spec (id row) (id f0)) as [E|_].
      * exfalso. apply Hnot. rewrite <- E, Hid.
        apply in_map, (nth_error_In _ _ Hf).
      * now apply (IH outs k file).
Qed.

Lemma row_after_transition (files : list UploadedFile) :
  forall (outs : list (outcome exn ExtractionResult)) (row : UploadedFile),
  NoDup (map id files) -> transition row (row_after files outs row).
Proof.
  induction files as [|f0 rest IH]; intros outs row Hnd; [now apply untouched|].
  destruct outs as [|o outs]; [now apply untouched|].
  inversion Hnd as [|? ? Hnot Hrest]; subst. simpl.
  destruct (Z.eqb_spec (id row) (id f0)) as [E|Hne].
  - rewrite row_after_other.
    + apply turn_row_transition.
    + now rewrite turn_row_keeps_id, E.
  - unfold Routes.turn_row at 1.
    destruct (Z.eqb_spec (id row) (id f0)); [contradiction|]. now apply IH.
Qed.

Lemma no_analyzing_map (f : UploadedFile -> UploadedFile) (table : list UploadedFile) :
  (forall row, status row <> analyzing -> status (f row) <> analyzing) ->
  no_analyzing table = true -> no_analyzing (map f table) = true.
Proof.
  intros Hf. unfold no_analyzing. rewrite !forallb_forall. intros H row Hin.
  apply in_map_iff in Hin as (r & <- & Hin). specialize (H r Hin).
  specialize (Hf r).
  destruct (status r); try discriminate;
    destruct (status (f r)); try reflexivity; exfalso; apply Hf; congruence.
Qed.

Lemma turn_row_settled (i : Z) (o : outcome exn ExtractionResult) (row : UploadedFile) :
  status row <> analyzing -> status (turn_row i o row) <> analyzing.
Proof.
  intros H. unfold Routes.turn_row. destruct (id row =? i)%Z; [|exact H].
  rewrite final_values_status.
  destruct (final_status_settled o) as [-> | ->]; discriminate.
Qed.

Lemma row_after_settled (files : list UploadedFile) :
  forall (outs : list (outcome exn ExtractionResult)) (row : UploadedFile),
  status row <> analyzing -> status (row_after files outs row) <> analyzing.
Proof.
  induction files as [|f0 rest IH]; intros outs row H; [exact H|].
  destruct outs as [|o outs]; [exact H|]. simpl.
  now apply IH, turn_row_settled.
Qed.

Lemma Forall2_map_r (R : UploadedFile -> UploadedFile -> Prop)
  (f : UploadedFile -> UploadedFile) (table : list UploadedFile) :
  (forall row, R row (f row)) -> Forall2 R table (map f table).
Proof. intros H. induction table; simpl; constructor; auto. Qed.

(** The table after the single-file route, in every case. *)
Lemma analyze_file_table (file_id : Z) (w : World Ext) :
  db (snd (analyze_file file_id w)) = db w
  \/ exists o, db (snd (analyze_file file_id w)) = map (turn_row file_id o) (db w).
Proof.
  destruct (select_first_by_id file_id (db w)) as [row|] eqn:Hsel.
  - destruct (falsy (file_content row)) eqn:Hc.
    + left. now rewrite (analyze_file_no_content_run _ _ _ Hsel Hc).
    + right. destruct (extract_from_pdf (file_content row) (ext w)) as [o x] eqn:Hext.
      exists o. now rewrite (analyze_file_run _ _ _ _ _ Hsel Hc Hext).
  - left. now rewrite (analyze_file_not_found_run _ _ Hsel).
Qed.

Lemma select_unknown (j : Z) (table : list UploadedFile) :
  ~ In j (map id table) -> select_first_by_id j table = None.
Proof.
  intros Hn. destruct (select_first_by_id j table) as [row|] eqn:E; [|reflexivity].
  apply select_In in E as [Hin <-]. exfalso. apply Hn. now apply in_map.
Qed.

Lemma select_turn_row (file_id : Z) (o : outcome exn ExtractionResult)
  (table : list UploadedFile) (row : UploadedFile) :
  select_first_by_id file_id table = Some row ->
  select_first_by_id file_id (map (turn_row file_id o) table)
  = Some (final_values o (values_status analyzing row)).
Proof.
  intros Hsel. rewrite select_map by apply turn_row_keeps_id.
  rewrite Hsel. simpl. apply select_In in Hsel as [_ Hid].
  unfold Routes.turn_row. now rewrite Hid, Z.eqb_refl.
Qed.

Lemma count_pointwise {A B : Type} (p : A -> bool) (q : B -> bool) (l1 : list A) :
  forall l2 : list B,
  List.length l2 = List.length l1 ->
  (forall k a b, nth_error l1 k = Some a -> nth_error l2 k = Some b -> p a = q b) ->
  List.length (filter p l1) = List.length (filter q l2).
Proof.
  induction l1 as [|a l1 IH]; intros [|b l2] Hlen H; try discriminate; [reflexivity|].
  simpl. rewrite (H 0 a b eq_refl eq_refl).
  assert (E : List.length (filter p l1) = List.length (filter q l2)).
  { apply IH; [simpl in Hlen; lia|]. intros k x y Hx Hy. exact (H (S k) x y Hx Hy). }
  destruct (q b); simpl; now rewrite E.
Qed.

(** C10: for a file id under which nothing is stored, the single-file route
    raises the 404 error and leaves the world as it was: no update is
    issued and the orchestrator is not called. *)
Theorem analyze_file_unknown_id (file_id : Z) (w : World Ext) :
  ~ In file_id (map id (db w)) ->
  analyze_file file_id w = (Raised (HTTPException 404 (lit "File not found")), w).
Proof.
  intros Hn. apply analyze_file_not_found_run. now apply select_unknown.
Qed.

(** C9: an exception that leaves the orchestrator is caught by the route and
    recorded on the file as [failed] with the exception's message, in the
    single-file route and in a turn of the bulk loop; and a table without
    [analyzing] rows has none after either route. *)
Theorem analyze_never_stuck (file_id : Z) (w : World Ext) :
  no_analyzing (db w) = true ->
  no_analyzing (db (snd (analyze_file file_id w))) = true
  /\ no_analyzing (db (snd (analyze_all_pending w))) = true
  /\ (forall row e x,
        select_first_by_id file_id (db w) = Some row ->
        falsy (file_content row) = false ->
        extract_from_pdf (file_content row) (ext w) = (Raised e, x) ->
        fst (analyze_file file_id w) = Raised (HTTPException 500 (exn_str e))
        /\ exists row',
             select_first_by_id file_id (db (snd (analyze_file file_id w))) = Some row'
             /\ status row' = failed /\ error_message row' = Some (exn_str e))
  /\ (forall file analyzed_count results e x,
        In file (db w) ->
        extract_from_pdf (file_content file) (ext w) = (Raised e, x) ->
        exists acc w',
          sweep_one file analyzed_count results w = (Returned acc, w')
          /\ exists row',
               select_first_by_id (id file) (db w') = Some row'
               /\ status row' = failed /\ error_message row' = Some (exn_str e)).
Proof.
  intros Hinv. split; [|split; [|split]].
  - destruct (analyze_file_table file_id w) as [-> | [o ->]]; [exact Hinv|].
    apply no_analyzing_map; [|exact Hinv]. intros row. apply turn_row_settled.
  - destruct (analyze_all_pending_run w) as [resp [-> _]]. simpl.
    apply no_analyzing_map; [|exact Hinv]. intros row. apply row_after_settled.
  - intros row e x Hsel Hc Hext.
    rewrite (analyze_file_run _ _ _ _ _ Hsel Hc Hext). simpl.
    split; [reflexivity|]. eexists.
    split; [exact (select_turn_row _ _ _ _ Hsel)|]. split; reflexivity.
  - intros file c res e x Hin Hext.
    rewrite (sweep_one_run _ c res _ _ _ Hext). do 2 eexists. split; [reflexivity|].
    simpl. destruct (In_select _ _ Hin) as [row0 Hsel]. eexists.
    split; [exact (select_turn_row _ _ _ _ Hsel)|]. split; reflexivity.
Qed.

(** C1 (amended): an analyze operation changes a stored row by one of the
    two final updates or not at all: the transition to [completed] sets
    [extracted_data] and leaves [error_message] as it was, the transition to
    [failed] sets [error_message] and leaves [extracted_data] as it was.  So
    in a table where neither field is set (files as uploaded), the
    single-file route and the bulk sweep leave no row with both set. *)
Theorem analyze_writes_one_field (w : World Ext) :
  NoDup (map id (db w)) ->
  (forall file_id, Forall2 transition (db w) (db (snd (analyze_file file_id w))))
  /\ Forall2 transition (db w) (db (snd (analyze_all_pending w)))
  /\ ((forall row, In row (db w) ->
        extracted_data row = None /\ error_message row = None) ->
      forall file_id row',
        In row' (db (snd (analyze_file file_id w)))
        \/ In row' (db (snd (analyze_all_pending w))) ->
        extracted_data row' = None \/ error_message row' = None).
Proof.
  intros Hnd.
  assert (H1 : forall file_id,
             Forall2 transition (db w) (db (snd (analyze_file file_id w)))).
  { intros file_id.
    destruct (analyze_file_table file_id w) as [-> | [o ->]].
    - rewrite <- (map_id (db w)) at 2. apply Forall2_map_r.
      intros row. now apply untouched.
    - apply Forall2_map_r. intros row. apply turn_row_transition. }
  assert (H2 : Forall2 transition (db w) (db (snd (analyze_all_pending w)))).
  { destruct (analyze_all_pending_run w) as [resp [-> _]]. simpl.
    apply Forall2_map_r. intros row. apply row_after_transition.
    now apply filter_ids_NoDup. }
  split; [exact H1|]. split; [exact H2|].
  intros Hfresh file_id row' Hin.
  assert (Hex : exists row, In row (db w) /\ transition row row').
  { destruct Hin as [Hin | Hin].
    - specialize (H1 file_id). revert Hin. clear -H1.
      induction H1 as [|a b la lb Hab _ IH]; simpl; [tauto|].
      intros [<- | Hin]; [eauto|]. destruct (IH Hin) as (r & ? & ?); eauto.
    - revert Hin. clear -H2.
      induction H2 as [|a b la lb Hab _ IH]; simpl; [tauto|].
      intros [<- | Hin]; [eauto|]. destruct (IH Hin) as (r & ? & ?); eauto. }
  destruct Hex as (row & Hrow & Ht). destruct (Hfresh row Hrow) as [Hd He].
  destruct Ht as [-> | d -> | m ->]; simpl; auto.
Qed.

(** C8: on a non-empty queue of pending files with distinct ids, the bulk
    sweep returns; it runs the orchestrator on every file of the queue, in
    queue order, whatever the earlier outcomes were; it reports one entry
    per file; every file ends in the status of its own outcome, [failed]
    with the exception's message when its processing raised; and
    [analyzed_count] is the number of files of the queue that reached
    [completed]. *)
Theorem analyze_all_pending_sweeps (w : World Ext) :
  NoDup (map id (db w)) ->
  select_pending (db w) <> [] ->
  let pending_files := select_pending (db w) in
  let outs := outcomes pending_files (ext w) in
  exists (resp : SweepResponse) (w' : World Ext),
    analyze_all_pending w = (Returned resp, w')
    /\ List.length outs = List.length pending_files
    /\ ext w' = ext_after pending_files (ext w)
    /\ total_processed resp = Some (List.length pending_files)
    /\ results resp
       = Some (map (fun p => entry_of (fst p) (snd p)) (combine pending_files outs))
    /\ (forall k file o,
          nth_error pending_files k = Some file ->
          nth_error outs k = Some o ->
          exists row',
            select_first_by_id (id file) (db w') = Some row'
            /\ status row' = final_status o
            /\ (forall e, o = Raised e ->
                status row' = failed /\ error_message row' = Some (exn_str e)))
    /\ analyzed_count resp
       = List.length (filter (fun file => reached_completed (db w') (id file))
                        pending_files).
Proof.
  intros Hnd Hne pending_files outs.
  destruct (analyze_all_pending_run w) as [resp [Hrun Hresp]].
  fold pending_files in Hrun, Hresp. fold outs in Hrun, Hresp.
  specialize (Hresp Hne). do 2 eexists. split; [exact Hrun|].
  assert (Hlen : List.length outs = List.length pending_files)
    by apply outcomes_length.
  assert (Hp : NoDup (map id pending_files)) by now apply filter_ids_NoDup.
  assert (Hat : forall k file o,
             nth_error pending_files k = Some file ->
             nth_error outs k = Some o ->
             exists row,
               select_first_by_id (id file)
                 (map (row_after pending_files outs) (db w))
               = Some (final_values o (values_status analyzing row))).
  { intros k file o Hf Ho.
    assert (Hin : In file (db w)).
    { apply nth_error_In in Hf. now apply filter_In in Hf as [Hin _]. }
    destruct (In_select _ _ Hin) as [row Hsel]. exists row.
    rewrite select_map by apply row_after_keeps_id. rewrite Hsel. simpl.
    f_equal. apply (row_after_at pending_files outs k file row o Hp Hf Ho).
    now apply select_In in Hsel as [_ ?]. }
  split; [exact Hlen|]. subst resp. simpl.
  split; [reflexivity|]. split; [reflexivity|]. split; [reflexivity|]. split.
  - intros k file o Hf Ho. destruct (Hat k file o Hf Ho) as [row Hrow].
    eexists. split; [exact Hrow|]. split; [apply final_values_status|].
    intros e ->. split; reflexivity.
  - symmetry. apply count_pointwise; [exact Hlen|].
    intros k file o Hf Ho. destruct (Hat k file o Hf Ho) as [row Hrow].
    unfold reached_completed. rewrite Hrow. now rewrite final_values_status.
Qed.

End Handlers.

End RoutesFacts.

Import Routes.

Example sweep_with_a_raising_turn :
  let run := analyze_all_pending Stubs.flaky Stubs.json_dumps (Stubs.queue_world 0) in
  option_map analyzed_count
    (match fst run with Returned resp => Some resp | Raised _ => None end) = Some 2
  /\ map status (db (snd run)) = [completed; failed; completed]
  /\ map error_message (db (snd run)) = [None; Some (lit "503 UNAVAILABLE"); None].
Proof. vm_compute. repeat split. Qed.

(** C1, as stated, fails: a file whose first analysis failed and whose second
    analysis succeeds ends with both fields set; the update to [completed]
    does not clear [error_message]. *)
Lemma reanalysis_sets_both_fields :
  let w1 := snd (analyze_file Stubs.orchestrator Stubs.json_dumps 1 Stubs.one_file_world) in
  let w2 := snd (analyze_file Stubs.orchestrator Stubs.json_dumps 1 w1) in
  map Stubs.tracked (db w1)
  = [(failed, None, Some (lit "Failed to parse JSON from Gemini"))]
  /\ map Stubs.tracked (db w2)
     = [(completed, Some (lit "{}"), Some (lit "Failed to parse JSON from Gemini"))].
Proof. vm_compute. split; reflexivity. Qed.

Lemma queue_ids_distinct : NoDup (map id Stubs.queue).
Proof. repeat constructor; simpl; intuition discriminate. Defined.

Lemma analyze_writes_one_field_witness :
  Forall2 transition Stubs.queue
    (db (snd (analyze_all_pending Stubs.flaky Stubs.json_dumps (Stubs.queue_world 0)))).
Proof.
  exact (proj1 (proj2 (RoutesFacts.analyze_writes_one_field
                         nat Stubs.flaky Stubs.json_dumps (Stubs.queue_world 0)
                         queue_ids_distinct))).
Defined.

Lemma analyze_all_pending_sweeps_witness :
  exists resp w',
    analyze_all_pending Stubs.flaky Stubs.json_dumps (Stubs.queue_world 0)
    = (Returned resp, w')
    /\ analyzed_count resp
       = List.length (filter (fun file => reached_completed (db w') (id file))
                        Stubs.queue).
Proof.
  destruct (RoutesFacts.analyze_all_pending_sweeps
              nat Stubs.flaky Stubs.json_dumps (Stubs.queue_world 0))
    as (resp & w' & Hrun & _ & _ & _ & _ & _ & Hcount).
  - exact queue_ids_distinct.
  - discriminate.
  - exists resp, w'. split; [exact Hrun|exact Hcount].
Defined.

Lemma analyze_never_stuck_witness :
  no_analyzing
    (db (snd (analyze_file Stubs.flaky Stubs.json_dumps 1 (Stubs.queue_world 1))))
  = true.
Proof.
  exact (proj1 (RoutesFacts.analyze_never_stuck
                  nat Stubs.flaky Stubs.json_dumps 1 (Stubs.queue_world 1) eq_refl)).
Defined.

Lemma analyze_file_unknown_id_witness :
  analyze_file Stubs.flaky Stubs.json_dumps 7 (Stubs.queue_world 0)
  = (Raised (HTTPException 404 (lit "File not found")), Stubs.queue_world 0).
Proof.
  apply (RoutesFacts.analyze_file_unknown_id
           nat Stubs.flaky Stubs.json_dumps 7 (Stubs.queue_world 0)).
  simpl. intuition discriminate.
Defined.

(** * Further properties of the code *)

(** ** Response normalizer: the other two input shapes, and what is cut *)

Module NormalizerMore.

Lemma strip_prefix_app_both (p q x : str) :
  strip_prefix (p ++ q) (p ++ x) = strip_prefix q x.
Proof.
  induction p as [|a p IH]; simpl; [reflexivity|]. now rewrite N.eqb_refl.
Qed.

(** The closing fence cannot complete the word "json". *)
Lemma json_tag_not_completed (t : str) :
  startswith (lit "json") t = false -> startswith (lit "json") (t ++ fence) = false.
Proof.
  change (lit "json") with [106; 115; 111; 110]%N.
  change fence with [96; 96; 96]%N.
  unfold startswith.
  destruct t as [|a [|b [|c [|d t]]]]; cbn [strip_prefix app]; intros H;
    repeat match goal with
           | |- context [(?x =? ?y)%N] => destruct (N.eqb_spec x y); try subst
           end;
    cbn in *; congruence.
Qed.

Lemma trimmed_bare_fenced (t : str) : trimmed (fence ++ t ++ fence).
Proof.
  change (fence ++ t ++ fence) with ((96%N :: (lit "``" ++ t)) ++ fence).
  now apply trimmed_before_fence.
Qed.

Lemma clean_json_response_strip (s : str) :
  clean_json_response (strip s) = clean_json_response s.
Proof. unfold clean_json_response. now rewrite (strip_trimmed s). Qed.

(** X1: the bare fence of the docstring: a text wrapped in [```] markers that
    does not start with the word "json" comes back trimmed, whatever else it
    contains. *)
Theorem clean_json_response_bare_fence (t : str) :
  startswith (lit "json") t = false ->
  clean_json_response (fence ++ t ++ fence) = strip t.
Proof.
  intros Hj.
  assert (H1 : startswith fence_json (fence ++ t ++ fence) = false).
  { unfold startswith. rewrite fence_json_split, strip_prefix_app_both.
    exact (json_tag_not_completed t Hj). }
  unfold clean_json_response.
  rewrite (trimmed_bare_fenced t), (re_sub_leading_miss _ _ H1).
  rewrite (trimmed_bare_fenced t).
  unfold re_sub_leading at 1. rewrite strip_prefix_app.
  destruct (lstrip t) as [|c x] eqn:EL.
  - replace (strip t) with (@nil char) by (unfold strip; now rewrite EL).
    now rewrite (lstrip_app_blank _ _ EL).
  - assert (Hc : isspace c = false) by exact (lstrip_head _ _ _ EL).
    assert (Es : strip t = rstrip (c :: x)) by (unfold strip; now rewrite EL).
    rewrite lstrip_app_keep by congruence. rewrite EL.
    rewrite (trimmed_before_fence c x Hc).
    unfold re_sub_trailing_fence. rewrite strip_suffix_app, <- Es.
    apply strip_trimmed.
Qed.

Lemma clean_json_response_bare_fence_witness :
  clean_json_response (fence ++ lit " [1, 2] " ++ fence) = lit "[1, 2]".
Proof. apply (clean_json_response_bare_fence (lit " [1, 2] ")). reflexivity. Defined.

(** X2: raw JSON of the docstring: a text that, once trimmed, neither starts nor
    ends with a fence marker is only trimmed. *)
Theorem clean_json_response_unfenced (s : str) :
  startswith fence (strip s) = false -> endswith fence (strip s) = false ->
  clean_json_response s = strip s.
Proof.
  intros Hs He. rewrite <- clean_json_response_strip.
  apply clean_json_response_fixed; [apply strip_trimmed|exact Hs|exact He].
Qed.

Lemma clean_json_response_unfenced_witness :
  clean_json_response (lit "  {} ") = lit "{}".
Proof. apply (clean_json_response_unfenced (lit "  {} ")); reflexivity. Defined.

Lemma lstrip_is_suffix (s : str) : exists a, s = a ++ lstrip s.
Proof.
  induction s as [|c r [a IH]]; [now exists []|]. simpl.
  destruct (isspace c); [|now exists []].
  exists (c :: a). simpl. now rewrite <- IH.
Qed.

Lemma rstrip_is_prefix (s : str) : exists b, s = rstrip s ++ b.
Proof.
  unfold rstrip. destruct (lstrip_is_suffix (rev s)) as [a E].
  exists (rev a). rewrite <- rev_app_distr, <- E. now rewrite rev_involutive.
Qed.

Lemma strip_is_infix (s : str) : exists a b, s = a ++ strip s ++ b.
Proof.
  unfold strip. destruct (lstrip_is_suffix s) as [a Ea].
  destruct (rstrip_is_prefix (lstrip s)) as [b Eb].
  exists a, b. now rewrite <- Eb.
Qed.

Lemma re_sub_leading_is_suffix (p s : str) : exists a, s = a ++ re_sub_leading p s.
Proof.
  unfold re_sub_leading. destruct (strip_prefix p s) as [r|] eqn:E; [|now exists []].
  apply strip_prefix_Some in E. destruct (lstrip_is_suffix r) as [a Ea].
  exists (p ++ a). rewrite <- app_assoc. now rewrite <- Ea.
Qed.

Lemma re_sub_trailing_fence_is_prefix (t : str) :
  trimmed t -> exists b, t = re_sub_trailing_fence t ++ b.
Proof.
  intros Ht. destruct (endswith fence t) eqn:He.
  - apply endswith_true in He as (r & E & Hr).
    unfold re_sub_trailing_fence. rewrite E.
    destruct (rstrip_is_prefix r) as [b Eb]. exists (b ++ fence).
    rewrite app_assoc. now rewrite <- Eb.
  - rewrite (re_sub_trailing_fence_miss t Ht He). exists []. now rewrite app_nil_r.
Qed.

(** X3: the normalizer only cuts at the two ends: its result is a contiguous
    piece of its argument, so nothing inside the payload is altered. *)
Theorem clean_json_response_cuts_ends (s : str) :
  exists a b, s = a ++ clean_json_response s ++ b.
Proof.
  unfold clean_json_response.
  set (s1 := strip s).
  set (s2 := re_sub_leading fence_json s1).
  set (s3 := strip s2).
  set (s4 := re_sub_leading fence s3).
  set (s5 := strip s4).
  set (s6 := re_sub_trailing_fence s5).
  destruct (strip_is_infix s) as (a1 & b1 & E1). fold s1 in E1.
  destruct (re_sub_leading_is_suffix fence_json s1) as (a2 & E2). fold s2 in E2.
  destruct (strip_is_infix s2) as (a3 & b3 & E3). fold s3 in E3.
  destruct (re_sub_leading_is_suffix fence s3) as (a4 & E4). fold s4 in E4.
  destruct (strip_is_infix s4) as (a5 & b5 & E5). fold s5 in E5.
  destruct (re_sub_trailing_fence_is_prefix s5 (strip_trimmed s4)) as (b6 & E6).
  fold s6 in E6.
  destruct (strip_is_infix s6) as (a7 & b7 & E7).
  exists (a1 ++ a2 ++ a3 ++ a4 ++ a5 ++ a7), (b7 ++ b6 ++ b5 ++ b3 ++ b1).
  rewrite E1 at 1. rewrite E2 at 1. rewrite E3 at 1. rewrite E4 at 1.
  rewrite E5 at 1. rewrite E6 at 1. rewrite E7 at 1.
  now rewrite <- !app_assoc.
Qed.

End NormalizerMore.

(** ** Extractor and orchestrator: the remaining paths *)

Module ServicesMore.
Import Services.

Section Collaborators.

Variable Remote : Type.
Variable fitz_open : content -> outcome exn (list Page).
Variable OCR_AVAILABLE : bool.
Variable generate_content : str -> Remote -> outcome exn (option str) * Remote.
Variable json_loads : str -> outcome exn json.

Abbreviation extract_text_from_pdf :=
  (extract_text_from_pdf fitz_open OCR_AVAILABLE).
Abbreviation extract_from_pdf :=
  (extract_from_pdf fitz_open OCR_AVAILABLE generate_content json_loads).

(** A page keeps its embedded text unless OCR is asked for, available,
    the page is sparse, and the recognition returns. *)
Lemma page_text_embedded (use_ocr : bool) (page : Page) :
  use_ocr && OCR_AVAILABLE = false
  \/ 50 <= List.length (strip (get_text page))
  \/ (exists e, ocr page = Raised e) ->
  page_text OCR_AVAILABLE use_ocr page = get_text page.
Proof.
  unfold page_text. intros [H | [H | [e H]]].
  - now rewrite H.
  - apply Nat.ltb_ge in H. now rewrite H, andb_false_r.
  - rewrite H. now destruct (_ && _).
Qed.

Lemma read_pages_embedded (use_ocr : bool) (pages : list Page) :
  forall text : str,
  Forall (fun page =>
            use_ocr && OCR_AVAILABLE = false
            \/ 50 <= List.length (strip (get_text page))
            \/ (exists e, ocr page = Raised e)) pages ->
  read_pages OCR_AVAILABLE use_ocr pages text
  = text ++ flat_map (fun page => get_text page ++ nl) pages.
Proof.
  induction pages as [|page rest IH]; intros text H; simpl.
  - now rewrite app_nil_r.
  - inversion H as [|? ? Hp Hrest]; subst.
    rewrite (IH _ Hrest), (page_text_embedded use_ocr page Hp).
    now rewrite <- !app_assoc.
Qed.

(** X4: what the extractor returns is trimmed and has at least 10 characters. *)
Theorem extract_text_from_pdf_returns_trimmed
  (pdf_bytes : content) (use_ocr : bool) (text : str) :
  extract_text_from_pdf pdf_bytes use_ocr = Returned text ->
  trimmed text /\ 10 <= List.length text.
Proof.
  unfold Services.extract_text_from_pdf.
  destruct (fitz_open pdf_bytes) as [pages|e]; [|discriminate].
  destruct (is_empty _ || _) eqn:E; [discriminate|].
  intros H. injection H as <-. apply orb_false_iff in E as [_ E].
  apply Nat.ltb_ge in E. split; [apply strip_trimmed|exact E].
Qed.

(** X5: without OCR (not asked for, or not installed), a document whose pages
    carry at least 10 characters of text once trimmed yields the embedded
    text of its pages, in page order, a newline after each page, trimmed. *)
Theorem extract_text_from_pdf_embedded
  (pdf_bytes : content) (use_ocr : bool) (pages : list Page) :
  use_ocr && OCR_AVAILABLE = false ->
  fitz_open pdf_bytes = Returned pages ->
  10 <= List.length (strip (flat_map (fun page => get_text page ++ nl) pages)) ->
  extract_text_from_pdf pdf_bytes use_ocr
  = Returned (strip (flat_map (fun page => get_text page ++ nl) pages)).
Proof.
  intros Hocr Hopen Hlen. unfold Services.extract_text_from_pdf. rewrite Hopen.
  rewrite (read_pages_embedded use_ocr pages []) by (apply Forall_forall; auto).
  simpl app.
  destruct (flat_map (fun page => get_text page ++ nl) pages) as [|c t] eqn:E.
  - simpl in Hlen. lia.
  - apply Nat.ltb_ge in Hlen. now rewrite Hlen.
Qed.

(** X6: asking for OCR changes nothing when every page either has 50
    characters of embedded text or cannot be recognised: a failed
    recognition is not an extraction failure. *)
Theorem extract_text_from_pdf_ocr_fallback (pdf_bytes : content) (pages : list Page) :
  fitz_open pdf_bytes = Returned pages ->
  Forall (fun page => 50 <= List.length (strip (get_text page))
                      \/ (exists e, ocr page = Raised e)) pages ->
  extract_text_from_pdf pdf_bytes true = extract_text_from_pdf pdf_bytes false.
Proof.
  intros Hopen H. unfold Services.extract_text_from_pdf. rewrite Hopen.
  rewrite (read_pages_embedded true pages []).
  - rewrite (read_pages_embedded false pages []); [reflexivity|].
    apply Forall_forall. auto.
  - eapply Forall_impl; [|exact H]. intros page Hp. now right.
Qed.

(** X7: the orchestrator never raises; its result says [success] and carries
    either the data with a preview and no error, or an error and no data;
    the model is called exactly when the extractor returned, once, with the
    prompt built from the extracted text. *)
Theorem extract_from_pdf_result_shape
  (pdf_bytes : content) (use_ocr : bool) (w : World Remote) :
  exists result w',
    extract_from_pdf pdf_bytes use_ocr w = (Returned result, w')
    /\ (success result = Some true /\ data result <> None
          /\ error result = None /\ raw_text_preview result <> None
        \/ success result = Some false /\ data result = None
             /\ error result <> None)
    /\ ((exists e, extract_text_from_pdf pdf_bytes use_ocr = Raised e) /\ w' = w
        \/ exists text,
             extract_text_from_pdf pdf_bytes use_ocr = Returned text
             /\ prompts w' = prompts w ++ [prompt_of text]).
Proof.
  unfold Services.extract_from_pdf, generate, response_text. unfold_eff.
  destruct (extract_text_from_pdf pdf_bytes use_ocr) as [text|e] eqn:Ht.
  - destruct (generate_content (prompt_of text) (remote w)) as [[[reply|]|[]] r];
      cbn [fst snd].
    + destruct (json_loads (clean_json_response reply)) as [v|[]];
        do 2 eexists; (split; [reflexivity|]);
        (split; [|right; eexists; split; reflexivity]);
        cbn; first [left; repeat split; congruence | right; repeat split; congruence].
    + do 2 eexists; (split; [reflexivity|]);
        (split; [|right; eexists; split; reflexivity]);
        cbn; right; repeat split; congruence.
    + do 2 eexists; (split; [reflexivity|]);
        (split; [|right; eexists; split; reflexivity]);
        cbn; right; repeat split; congruence.
    + do 2 eexists; (split; [reflexivity|]);
        (split; [|right; eexists; split; reflexivity]);
        cbn; right; repeat split; congruence.
    + do 2 eexists; (split; [reflexivity|]);
        (split; [|right; eexists; split; reflexivity]);
        cbn; right; repeat split; congruence.
  - destruct e; do 2 eexists; (split; [reflexivity|]);
      (split; [|left; split; [eexists|]; reflexivity]);
      cbn; right; repeat split; congruence.
Qed.

(** X8: when the model call raises, the failure is tagged by the class of the
    exception alone: a [RuntimeError] from the model is reported as
    "PDF processing failed", any other exception as "Unexpected error" with
    its type name; the message is kept either way. *)
Theorem extract_from_pdf_model_failure
  (pdf_bytes : content) (use_ocr : bool) (text : str) (e : exn)
  (w : World Remote) (r : Remote) :
  extract_text_from_pdf pdf_bytes use_ocr = Returned text ->
  generate_content (prompt_of text) (remote w) = (Raised e, r) ->
  extract_from_pdf pdf_bytes use_ocr w
  = (Returned {| success := Some false;
                 data := None;
                 error := Some (match e with
                                | RuntimeError _ => lit "PDF processing failed"
                                | _ => lit "Unexpected error"
                                end);
                 details := Some (exn_str e);
                 gemini_response := None;
                 parse_error := None;
                 raw_text_preview := None;
                 type_ := match e with
                          | RuntimeError _ => None
                          | _ => Some (exn_type_name e)
                          end |},
     mkWorld r (prompts w ++ [prompt_of text])).
Proof.
  intros Ht Hg. unfold Services.extract_from_pdf, generate. unfold_eff.
  rewrite Ht, Hg. now destruct e.
Qed.

(** A reply without text is an "Unexpected error" of type AttributeError,
    not a parse failure. *)
Theorem extract_from_pdf_reply_without_text
  (pdf_bytes : content) (use_ocr : bool) (text : str)
  (w : World Remote) (r : Remote) :
  extract_text_from_pdf pdf_bytes use_ocr = Returned text ->
  generate_content (prompt_of text) (remote w) = (Returned None, r) ->
  extract_from_pdf pdf_bytes use_ocr w
  = (Returned {| success := Some false;
                 data := None;
                 error := Some (lit "Unexpected error");
                 details := Some (lit "'NoneType' object has no attribute 'strip'");
                 gemini_response := None;
                 parse_error := None;
                 raw_text_preview := None;
                 type_ := Some (lit "AttributeError") |},
     mkWorld r (prompts w ++ [prompt_of text])).
Proof.
  intros Ht Hg. unfold Services.extract_from_pdf, generate, response_text.
  unfold_eff. now rewrite Ht, Hg.
Qed.

End Collaborators.

End ServicesMore.

(** ** Status tracker: what the two analyze routes write and leave *)

Module RoutesMore.
Import Routes Server.

Lemma select_NoDup (table : list UploadedFile) (row : UploadedFile) :
  NoDup (map id table) -> In row table ->
  select_first_by_id (id row) table = Some row.
Proof.
  unfold select_first_by_id.
  induction table as [|r rest IH]; simpl; [tauto|].
  intros Hnd Hin. inversion Hnd as [|? ? Hnot Hrest]; subst.
  destruct Hin as [-> | Hin]; [now rewrite Z.eqb_refl|].
  destruct (Z.eqb_spec (id r) (id row)) as [E|_]; [|now apply IH].
  exfalso. apply Hnot. rewrite E. now apply in_map.
Qed.

Section Handlers.

Variable Ext : Type.
Variable extract_from_pdf : content -> M Ext exn ExtractionResult.
Variable json_dumps : json -> str.

Abbreviation analyze_file := (analyze_file extract_from_pdf json_dumps).
Abbreviation analyze_all_pending := (analyze_all_pending extract_from_pdf json_dumps).
Abbreviation outcomes := (outcomes extract_from_pdf).
Abbreviation turn_row := (turn_row json_dumps).
Abbreviation row_after := (row_after json_dumps).
Abbreviation final_values := (final_values json_dumps).

Lemma turn_row_columns (i : Z) (o : outcome exn ExtractionResult) (row : UploadedFile) :
  immutable_columns (turn_row i o row) = immutable_columns row.
Proof.
  unfold Routes.turn_row. destruct (id row =? i)%Z; [|reflexivity].
  destruct o as [extracted|e]; simpl; [|reflexivity].
  now destruct (dict_get (success extracted) false).
Qed.

Lemma row_after_columns (files : list UploadedFile) :
  forall (outs : list (outcome exn ExtractionResult)) (row : UploadedFile),
  immutable_columns (row_after files outs row) = immutable_columns row.
Proof.
  induction files as [|f rest IH]; intros outs row; [reflexivity|].
  destruct outs as [|o outs]; [reflexivity|]. simpl.
  now rewrite IH, turn_row_columns.
Qed.

Lemma turn_row_not_pending (i : Z) (o : outcome exn ExtractionResult)
  (row : UploadedFile) :
  status (turn_row i o row) = pending ->
  status row = pending /\ id row <> i.
Proof.
  unfold Routes.turn_row. destruct (Z.eqb_spec (id row) i) as [E|E]; [|tauto].
  rewrite (RoutesFacts.final_values_status json_dumps).
  destruct (RoutesFacts.final_status_settled o) as [-> | ->]; discriminate.
Qed.

Lemma row_after_not_pending (files : list UploadedFile) :
  forall (outs : list (outcome exn ExtractionResult)) (row : UploadedFile),
  List.length outs = List.length files ->
  status (row_after files outs row) = pending ->
  status row = pending /\ ~ In (id row) (map id files).
Proof.
  induction files as [|f rest IH]; intros outs row Hlen H; [simpl; tauto|].
  destruct outs as [|o outs]; [discriminate|]. simpl in *.
  apply IH in H as [H Hn]; [|lia].
  apply turn_row_not_pending in H as [H Hne]. split; [exact H|].
  rewrite (RoutesFacts.turn_row_keeps_id json_dumps) in Hn.
  intros [E|Hin]; [congruence|contradiction].
Qed.

(** X9: a stored file without content is refused with the 400 error before any
    update: its row, and the whole world, stay as they were. *)
Theorem analyze_file_rejects_missing_content
  (file_id : Z) (w : World Ext) (row : UploadedFile) :
  select_first_by_id file_id (db w) = Some row ->
  file_content row = None \/ file_content row = Some [] ->
  analyze_file file_id w
  = (Raised (HTTPException 400 (lit "File content not found")), w).
Proof.
  intros Hsel Hc. apply (RoutesFacts.analyze_file_no_content_run _ _ _ _ _ _ Hsel).
  now destruct Hc as [-> | ->].
Qed.

(** X10: when the orchestrator returns, the route answers with the status it
    has stored; a success stores the serialized data, the empty object when
    the result has no data, and a failure stores the result's error, or
    "Unknown error" when it has none. *)
Theorem analyze_file_records_result
  (file_id : Z) (w : World Ext) (row : UploadedFile)
  (extracted : ExtractionResult) (x : Ext) :
  select_first_by_id file_id (db w) = Some row ->
  falsy (file_content row) = false ->
  extract_from_pdf (file_content row) (ext w) = (Returned extracted, x) ->
  exists resp row',
    analyze_file file_id w = (Returned resp, mkWorld (db (snd (analyze_file file_id w))) x)
    /\ select_first_by_id file_id (db (snd (analyze_file file_id w))) = Some row'
    /\ resp_id resp = file_id
    /\ resp_extracted resp = extracted
    /\ resp_status resp = status row'
    /\ (success extracted = Some true ->
        status row' = completed
        /\ extracted_data row'
           = Some (json_dumps (dict_get (data extracted) (JObject []))))
    /\ (success extracted <> Some true ->
        status row' = failed
        /\ error_message row'
           = Some (dict_get (error extracted) (lit "Unknown error"))).
Proof.
  intros Hsel Hc Hext.
  rewrite (RoutesFacts.analyze_file_run _ _ _ _ _ _ _ _ Hsel Hc Hext). cbn [fst snd db].
  do 2 eexists. split; [reflexivity|].
  split; [exact (RoutesFacts.select_turn_row _ _ _ _ _ Hsel)|].
  cbn [resp_id resp_extracted resp_status Routes.final_values].
  unfold status_of.
  destruct (success extracted) as [[|]|] eqn:Es; cbn;
    repeat split; intros; congruence.
Qed.

(** X11: neither analyze route touches the id, the name, the size, the type,
    the upload time or the content of any row. *)
Theorem analyze_keeps_columns (file_id : Z) (w : World Ext) :
  map immutable_columns (db (snd (analyze_file file_id w)))
  = map immutable_columns (db w)
  /\ map immutable_columns (db (snd (analyze_all_pending w)))
     = map immutable_columns (db w).
Proof.
  split.
  - destruct (RoutesFacts.analyze_file_table _ extract_from_pdf json_dumps file_id w)
      as [-> | [o ->]]; [reflexivity|].
    rewrite map_map. apply map_ext. intros row. apply turn_row_columns.
  - destruct (RoutesFacts.analyze_all_pending_run _ extract_from_pdf json_dumps w)
      as [resp [-> _]]. cbn [snd db].
    rewrite map_map. apply map_ext. intros row. apply row_after_columns.
Qed.

(** X12: the single-file route leaves the rows stored under other ids alone. *)
Theorem analyze_file_other_rows (file_id other : Z) (w : World Ext) :
  other <> file_id ->
  select_first_by_id other (db (snd (analyze_file file_id w)))
  = select_first_by_id other (db w).
Proof.
  intros Hne.
  destruct (RoutesFacts.analyze_file_table _ extract_from_pdf json_dumps file_id w)
    as [-> | [o ->]]; [reflexivity|].
  rewrite select_map by apply RoutesFacts.turn_row_keeps_id.
  destruct (select_first_by_id other (db w)) as [row|] eqn:Hsel; [|reflexivity].
  apply select_In in Hsel as [_ Hid]. simpl. unfold Routes.turn_row.
  destruct (Z.eqb_spec (id row) file_id); [congruence|reflexivity].
Qed.

Lemma empty_queue_run (w : World Ext) :
  select_pending (db w) = [] ->
  analyze_all_pending w
  = (Returned (mkSweepResponse (lit "No pending files to analyze") 0 None None), w).
Proof.
  intros H. unfold Routes.analyze_all_pending. unfold_eff. now rewrite H.
Qed.

(** X13: with no file in status pending the bulk route answers at once: count
    0, no result list, no update and no call of the orchestrator. *)
Theorem analyze_all_pending_nothing_pending (w : World Ext) :
  (forall row, In row (db w) -> status row <> pending) ->
  analyze_all_pending w
  = (Returned (mkSweepResponse (lit "No pending files to analyze") 0 None None), w).
Proof.
  intros H. apply empty_queue_run. unfold select_pending.
  destruct (filter _ (db w)) as [|r rest] eqn:E; [reflexivity|].
  assert (Hr : In r (r :: rest)) by now left.
  rewrite <- E in Hr. apply filter_In in Hr as [Hin Hp].
  specialize (H r Hin). destruct (status r); simpl in Hp; congruence.
Qed.

(** X14: with distinct ids, the sweep leaves every row that was not pending
    exactly as it was. *)
Theorem analyze_all_pending_leaves_settled (w : World Ext) (row : UploadedFile) :
  NoDup (map id (db w)) ->
  In row (db w) -> status row <> pending ->
  In row (db (snd (analyze_all_pending w))).
Proof.
  intros Hnd Hin Hs.
  destruct (RoutesFacts.analyze_all_pending_run _ extract_from_pdf json_dumps w)
    as [resp [-> _]]. cbn [snd db].
  apply in_map_iff. exists row. split; [|exact Hin].
  apply RoutesFacts.row_after_other. intros Hid.
  apply in_map_iff in Hid as (file & Hfid & Hfile).
  apply filter_In in Hfile as [Hfile Hpend].
  assert (E : file = row).
  { pose proof (select_NoDup _ _ Hnd Hfile) as H1.
    pose proof (select_NoDup _ _ Hnd Hin) as H2.
    rewrite Hfid in H1. congruence. }
  subst file. destruct (status row); simpl in Hpend; congruence.
Qed.

(** X15: after a sweep nothing is pending, so a second sweep finds an empty
    queue and changes nothing. *)
Theorem analyze_all_pending_empties_queue (w : World Ext) :
  select_pending (db (snd (analyze_all_pending w))) = []
  /\ analyze_all_pending (snd (analyze_all_pending w))
     = (Returned (mkSweepResponse (lit "No pending files to analyze") 0 None None),
        snd (analyze_all_pending w)).
Proof.
  assert (H : select_pending (db (snd (analyze_all_pending w))) = []).
  { destruct (RoutesFacts.analyze_all_pending_run _ extract_from_pdf json_dumps w)
      as [resp [-> _]]. cbn [snd db].
    unfold select_pending at 1.
    destruct (filter _ (map _ (db w))) as [|r rest] eqn:E; [reflexivity|].
    assert (Hr : In r (r :: rest)) by now left.
    rewrite <- E in Hr. apply filter_In in Hr as [Hin Hp].
    apply in_map_iff in Hin as (row & <- & Hin).
    assert (Hst : status (row_after (select_pending (db w))
                            (outcomes (select_pending (db w)) (ext w)) row) = pending).
    { destruct (status _); simpl in Hp; congruence. }
    apply row_after_not_pending in Hst as [Hs Hn];
      [|apply RoutesFacts.outcomes_length].
    exfalso. apply Hn. apply in_map. apply filter_In. split; [exact Hin|].
    now rewrite Hs. }
  split; [exact H|]. now apply empty_queue_run.
Qed.

(** X16: a sweep over a queue of one file with content does what the
    single-file route does for that file. *)
Theorem sweep_of_one_is_analyze_file (w : World Ext) (file : UploadedFile) :
  NoDup (map id (db w)) ->
  select_pending (db w) = [file] ->
  falsy (file_content file) = false ->
  snd (analyze_all_pending w) = snd (analyze_file (id file) w).
Proof.
  intros Hnd Hq Hc.
  assert (Hin : In file (db w)).
  { assert (H : In file (select_pending (db w))) by (rewrite Hq; now left).
    now apply filter_In in H as [H _]. }
  pose proof (select_NoDup _ _ Hnd Hin) as Hsel.
  destruct (extract_from_pdf (file_content file) (ext w)) as [o x] eqn:Hext.
  rewrite (RoutesFacts.analyze_file_run _ _ _ _ _ _ _ _ Hsel Hc Hext).
  destruct (RoutesFacts.analyze_all_pending_run _ extract_from_pdf json_dumps w)
    as [resp [-> _]]. rewrite Hq. cbn. now rewrite Hext.
Qed.

End Handlers.

End RoutesMore.

(** ** Upload, lookup, listing and deletion; the routes together *)

Module EndpointsMore.
Import Routes Endpoints Server.

Lemma select_delete_same (file_id : Z) (table : list UploadedFile) :
  select_first_by_id file_id (delete_where_id file_id table) = None.
Proof.
  apply RoutesFacts.select_unknown. intros Hin.
  apply in_map_iff in Hin as (row & Hid & Hin).
  apply filter_In in Hin as [_ H]. rewrite Hid, Z.eqb_refl in H. discriminate.
Qed.

Lemma select_delete_other (file_id other : Z) (table : list UploadedFile) :
  other <> file_id ->
  select_first_by_id other (delete_where_id file_id table)
  = select_first_by_id other table.
Proof.
  intros Hne. unfold select_first_by_id, delete_where_id.
  induction table as [|row rest IH]; simpl; [reflexivity|].
  destruct (Z.eqb_spec (id row) file_id) as [E|E]; simpl.
  - destruct (Z.eqb_spec (id row) other); [congruence|exact IH].
  - destruct (id row =? other)%Z; [reflexivity|exact IH].
Qed.

Lemma select_app_new (file_id : Z) (table : list UploadedFile) (row : UploadedFile) :
  select_first_by_id file_id (table ++ [row])
  = match select_first_by_id file_id table with
    | Some r => Some r
    | None => if (id row =? file_id)%Z then Some row else None
    end.
Proof.
  unfold select_first_by_id.
  induction table as [|r rest IH]; simpl; [reflexivity|].
  destruct (id r =? file_id)%Z; [reflexivity|exact IH].
Qed.

Section Handlers.

Variable Ext : Type.
Variable extract_from_pdf : content -> M Ext exn ExtractionResult.
Variable json_loads : str -> outcome exn json.
Variable json_dumps : json -> str.
Variable isoformat : Z -> str.
Variable order_by_upload_time_desc : list UploadedFile -> list UploadedFile.
Variable inserted_primary_key : list UploadedFile -> Z.

Abbreviation analyze_file := (analyze_file extract_from_pdf json_dumps).
Abbreviation analyze_all_pending := (analyze_all_pending extract_from_pdf json_dumps).
Abbreviation get_file := (@get_file Ext json_loads isoformat).
Abbreviation get_all_files :=
  (@get_all_files Ext json_loads isoformat order_by_upload_time_desc).
Abbreviation delete_file := (@delete_file Ext).
Abbreviation upload_file := (@upload_file Ext isoformat inserted_primary_key).
Abbreviation file_view := (file_view json_loads isoformat).
Abbreviation decode_extracted := (decode_extracted json_loads).
Abbreviation insert_values := (insert_values inserted_primary_key).
Abbreviation serve :=
  (@serve Ext extract_from_pdf json_loads json_dumps isoformat
     order_by_upload_time_desc inserted_primary_key).
Abbreviation serve_all :=
  (@serve_all Ext extract_from_pdf json_loads json_dumps isoformat
     order_by_upload_time_desc inserted_primary_key).

Lemma get_file_run (file_id : Z) (w : World Ext) (row : UploadedFile) :
  select_first_by_id file_id (db w) = Some row ->
  get_file file_id w = (Returned (file_view row), w).
Proof.
  intros Hsel. unfold Endpoints.get_file. unfold_eff. now rewrite Hsel.
Qed.

Lemma get_file_world (file_id : Z) (w : World Ext) :
  snd (get_file file_id w) = w.
Proof.
  unfold Endpoints.get_file. unfold_eff.
  now destruct (select_first_by_id file_id (db w)).
Qed.

Lemma delete_file_run (file_id : Z) (w : World Ext) (row : UploadedFile) :
  select_first_by_id file_id (db w) = Some row ->
  delete_file file_id w
  = (Returned (mkDeleteResponse (lit "File deleted successfully") file_id),
     mkWorld (delete_where_id file_id (db w)) (ext w)).
Proof.
  intros Hsel. unfold Endpoints.delete_file. unfold_eff. now rewrite Hsel.
Qed.

Lemma delete_file_table (file_id : Z) (w : World Ext) :
  db (snd (delete_file file_id w)) = db w
  \/ db (snd (delete_file file_id w)) = delete_where_id file_id (db w).
Proof.
  destruct (select_first_by_id file_id (db w)) as [row|] eqn:Hsel.
  - right. now rewrite (delete_file_run _ _ _ Hsel).
  - left. unfold Endpoints.delete_file. unfold_eff. now rewrite Hsel.
Qed.

Lemma upload_file_table (filename : str) (content_type : option str)
  (pdf_bytes : bytes) (utcnow : Z) (w : World Ext) :
  snd (upload_file filename content_type pdf_bytes utcnow w)
  = mkWorld (db w ++ [insert_values filename content_type pdf_bytes utcnow (db w)])
            (ext w).
Proof.
  unfold Endpoints.upload_file. unfold_eff. cbn [db ext].
  now destruct (select_first_by_id _ _).
Qed.

(** X17: for an id under which nothing is stored, lookup and deletion both
    answer 404 and change nothing. *)
Theorem unknown_id_is_not_found (file_id : Z) (w : World Ext) :
  ~ In file_id (map id (db w)) ->
  get_file file_id w = (Raised (HTTPException 404 (lit "File not found")), w)
  /\ delete_file file_id w = (Raised (HTTPException 404 (lit "File not found")), w).
Proof.
  intros Hn. apply RoutesFacts.select_unknown in Hn.
  unfold Endpoints.get_file, Endpoints.delete_file. unfold_eff. now rewrite Hn.
Qed.

(** X18: deleting a stored file removes every row under its id, so that a later
    lookup answers 404; the rows under other ids and the orchestrator's
    world are left alone. *)
Theorem delete_file_removes (file_id : Z) (w : World Ext) (row : UploadedFile) :
  select_first_by_id file_id (db w) = Some row ->
  exists w',
    delete_file file_id w
    = (Returned (mkDeleteResponse (lit "File deleted successfully") file_id), w')
    /\ ext w' = ext w
    /\ ~ In file_id (map id (db w'))
    /\ get_file file_id w' = (Raised (HTTPException 404 (lit "File not found")), w')
    /\ (forall other, other <> file_id ->
        select_first_by_id other (db w') = select_first_by_id other (db w)).
Proof.
  intros Hsel. rewrite (delete_file_run _ _ _ Hsel). eexists.
  split; [reflexivity|]. split; [reflexivity|]. cbn [db].
  assert (Hn : ~ In file_id (map id (delete_where_id file_id (db w)))).
  { intros Hin. apply in_map_iff in Hin as (r & Hid & Hin).
    apply filter_In in Hin as [_ H]. rewrite Hid, Z.eqb_refl in H. discriminate. }
  split; [exact Hn|]. split.
  - unfold Endpoints.get_file. unfold_eff. cbn [db].
    now rewrite select_delete_same.
  - intros other Hne. now apply select_delete_other.
Qed.

(** X19: when the database gives the new row a key not yet in the table, the
    upload answers with that key and status pending, stores the bytes with
    their length and the content type (application/pdf when none is given),
    leaves both result columns unset, and leaves the other rows alone; a
    lookup of the key then shows the file as pending with no data and no
    error. *)
Theorem upload_file_then_get_file (filename : str) (content_type : option str)
  (pdf_bytes : bytes) (utcnow : Z) (w : World Ext) :
  ~ In (inserted_primary_key (db w)) (map id (db w)) ->
  let key := inserted_primary_key (db w) in
  exists resp w',
    upload_file filename content_type pdf_bytes utcnow w = (Returned (Some resp), w')
    /\ up_id resp = key /\ up_status resp = pending
    /\ up_file_size resp = Z.of_nat (List.length pdf_bytes)
    /\ ext w' = ext w
    /\ select_first_by_id key (db w')
       = Some (mkFile key filename (Z.of_nat (List.length pdf_bytes))
                 (content_type_or_pdf content_type) pending utcnow
                 (Some pdf_bytes) None None)
    /\ (forall other, other <> key ->
        select_first_by_id other (db w') = select_first_by_id other (db w))
    /\ get_file key w'
       = (Returned (mkFileView key filename (Z.of_nat (List.length pdf_bytes))
                      (content_type_or_pdf content_type) pending
                      (Some (isoformat utcnow)) JNull None),
          w').
Proof.
  intros Hn key. apply RoutesFacts.select_unknown in Hn. fold key in Hn.
  assert (Hsel : select_first_by_id key
                   (db w ++ [insert_values filename content_type pdf_bytes utcnow (db w)])
                 = Some (insert_values filename content_type pdf_bytes utcnow (db w))).
  { rewrite select_app_new, Hn. unfold Endpoints.insert_values at 1.
    cbn [id]. fold key. now rewrite Z.eqb_refl. }
  unfold Endpoints.upload_file. unfold_eff. cbn [db ext]. fold key.
  rewrite Hsel. do 2 eexists. split; [reflexivity|]. cbn [db ext].
  repeat split.
  - exact Hsel.
  - intros other Hne. rewrite select_app_new.
    destruct (select_first_by_id other (db w)); [reflexivity|].
    unfold Endpoints.insert_values. cbn [id]. fold key.
    destruct (Z.eqb_spec key other); [congruence|reflexivity].
  - unfold Endpoints.get_file. unfold_eff. cbn [db]. now rewrite Hsel.
Qed.

(** X20: a successful analysis followed by a lookup shows the file as completed
    with the data the orchestrator returned, provided the JSON codec gives a
    non-empty text that decodes back to the data; an error message left by
    an earlier failed analysis is still shown. *)
Theorem analyze_file_then_get_file_completed
  (file_id : Z) (w : World Ext) (row : UploadedFile)
  (extracted : ExtractionResult) (v : json) (x : Ext) :
  select_first_by_id file_id (db w) = Some row ->
  falsy (file_content row) = false ->
  extract_from_pdf (file_content row) (ext w) = (Returned extracted, x) ->
  success extracted = Some true ->
  data extracted = Some v ->
  json_dumps v <> [] ->
  json_loads (json_dumps v) = Returned v ->
  exists view,
    fst (get_file file_id (snd (analyze_file file_id w))) = Returned view
    /\ view_status view = completed
    /\ view_extracted_data view = v
    /\ view_error_message view = error_message row.
Proof.
  intros Hsel Hc Hext Hs Hd Hne Hrt.
  rewrite (RoutesFacts.analyze_file_run _ _ _ _ _ _ _ _ Hsel Hc Hext). cbn [snd].
  pose proof (RoutesFacts.select_turn_row json_dumps file_id
                (Returned extracted) _ _ Hsel) as Hsel'.
  rewrite (get_file_run file_id (mkWorld _ x) _ Hsel').
  eexists. split; [reflexivity|].
  cbn [Routes.final_values]. rewrite Hs, Hd. cbn.
  repeat split. destruct (json_dumps v) as [|c t] eqn:E; [congruence|].
  now rewrite Hrt.
Qed.

(** X21: an analysis that ends in [failed], by a failure result or by an
    exception, followed by a lookup shows the file as failed with the
    result's error (or "Unknown error") or the exception's message; data
    stored by an earlier successful analysis is still shown. *)
Theorem analyze_file_then_get_file_failed
  (file_id : Z) (w : World Ext) (row : UploadedFile)
  (o : outcome exn ExtractionResult) (x : Ext) :
  select_first_by_id file_id (db w) = Some row ->
  falsy (file_content row) = false ->
  extract_from_pdf (file_content row) (ext w) = (o, x) ->
  final_status o = failed ->
  exists view,
    fst (get_file file_id (snd (analyze_file file_id w))) = Returned view
    /\ view_status view = failed
    /\ view_error_message view
       = Some (match o with
               | Returned extracted => dict_get (error extracted) (lit "Unknown error")
               | Raised e => exn_str e
               end)
    /\ view_extracted_data view = decode_extracted (extracted_data row).
Proof.
  intros Hsel Hc Hext Hf.
  rewrite (RoutesFacts.analyze_file_run _ _ _ _ _ _ _ _ Hsel Hc Hext). cbn [snd].
  pose proof (RoutesFacts.select_turn_row json_dumps file_id o _ _ Hsel) as Hsel'.
  rewrite (get_file_run file_id (mkWorld _ x) _ Hsel').
  eexists. split; [reflexivity|].
  destruct o as [extracted|e]; cbn in *.
  - unfold status_of in Hf.
    destruct (dict_get (success extracted) false); [discriminate|].
    cbn. repeat split.
  - repeat split.
Qed.

(** X22: when the database returns the rows in some order, the listing has one
    entry per stored row and changes nothing; with distinct ids the entry
    of every stored file is what a lookup of its id returns. *)
Theorem get_all_files_lists_every_file (w : World Ext) :
  Permutation (order_by_upload_time_desc (db w)) (db w) ->
  NoDup (map id (db w)) ->
  exists views,
    get_all_files w = (Returned views, w)
    /\ List.length views = List.length (db w)
    /\ (forall row, In row (db w) ->
        exists view,
          get_file (id row) w = (Returned view, w) /\ In view views).
Proof.
  intros Hperm Hnd. unfold Endpoints.get_all_files. unfold_eff.
  eexists. split; [reflexivity|]. split.
  - rewrite length_map. now apply Permutation_length.
  - intros row Hin. exists (file_view row). split.
    + apply get_file_run. now apply RoutesMore.select_NoDup.
    + apply in_map. apply (Permutation_in _ (Permutation_sym Hperm) Hin).
Qed.

End Handlers.

End EndpointsMore.

Module RouterFacts.
Import Routes Endpoints Server.

Lemma forallb_map_keeps (p : UploadedFile -> bool) (f : UploadedFile -> UploadedFile)
  (table : list UploadedFile) :
  (forall row, p row = true -> p (f row) = true) ->
  forallb p table = true -> forallb p (map f table) = true.
Proof.
  intros Hf. rewrite !forallb_forall. intros H row Hin.
  apply in_map_iff in Hin as (r & <- & Hin). auto.
Qed.

Lemma forallb_filter_keeps (p q : UploadedFile -> bool) (table : list UploadedFile) :
  forallb p table = true -> forallb p (filter q table) = true.
Proof.
  rewrite !forallb_forall. intros H row Hin.
  apply filter_In in Hin as [Hin _]. auto.
Qed.

Lemma map_id_keeps (f : UploadedFile -> UploadedFile) (table : list UploadedFile) :
  keeps_id f -> map id (map f table) = map id table.
Proof. intros Hf. rewrite map_map. apply map_ext. exact Hf. Qed.

Section Router.

Variable Ext : Type.
Variable extract_from_pdf : content -> M Ext exn ExtractionResult.
Variable json_loads : str -> outcome exn json.
Variable json_dumps : json -> str.
Variable isoformat : Z -> str.
Variable order_by_upload_time_desc : list UploadedFile -> list UploadedFile.
Variable inserted_primary_key : list UploadedFile -> Z.

Abbreviation serve :=
  (@serve Ext extract_from_pdf json_loads json_dumps isoformat
     order_by_upload_time_desc inserted_primary_key).
Abbreviation serve_all :=
  (@serve_all Ext extract_from_pdf json_loads json_dumps isoformat
     order_by_upload_time_desc inserted_primary_key).

Lemma turn_row_consistent (i : Z) (o : outcome exn ExtractionResult)
  (row : UploadedFile) :
  consistent row = true -> consistent (turn_row json_dumps i o row) = true.
Proof.
  intros H. unfold Routes.turn_row. destruct (id row =? i)%Z; [|exact H].
  destruct o as [extracted|e]; simpl; [|reflexivity].
  now destruct (dict_get (success extracted) false).
Qed.

Lemma row_after_consistent (files : list UploadedFile) :
  forall (outs : list (outcome exn ExtractionResult)) (row : UploadedFile),
  consistent row = true -> consistent (row_after json_dumps files outs row) = true.
Proof.
  induction files as [|f rest IH]; intros outs row H; [exact H|].
  destruct outs as [|o outs]; [exact H|]. simpl.
  now apply IH, turn_row_consistent.
Qed.

Lemma serve_keeps (r : request) (w : World Ext) :
  (forall table, ~ In (inserted_primary_key table) (map id table)) ->
  NoDup (map id (db w)) /\ forallb consistent (db w) = true ->
  NoDup (map id (db (serve r w))) /\ forallb consistent (db (serve r w)) = true.
Proof.
  intros Hkey [Hnd Hc]. destruct r as [fn ct bs now | i | | | i | i]; simpl.
  - rewrite (EndpointsMore.upload_file_table _ isoformat inserted_primary_key).
    cbn [db].
    rewrite map_app, forallb_app, Hc. split; [|reflexivity].
    apply NoDup_app; [exact Hnd|repeat constructor; simpl; tauto|].
    simpl. intros k Hin [<- | []]. exact (Hkey _ Hin).
  - destruct (RoutesFacts.analyze_file_table _ extract_from_pdf json_dumps i w)
      as [-> | [o ->]]; [now split|].
    rewrite map_id_keeps by apply RoutesFacts.turn_row_keeps_id.
    split; [exact Hnd|].
    apply forallb_map_keeps; [|exact Hc]. intros row. apply turn_row_consistent.
  - destruct (RoutesFacts.analyze_all_pending_run _ extract_from_pdf json_dumps w)
      as [resp [-> _]]. cbn [snd db].
    rewrite map_id_keeps by apply RoutesFacts.row_after_keeps_id.
    split; [exact Hnd|].
    apply forallb_map_keeps; [|exact Hc]. intros row. apply row_after_consistent.
  - now split.
  - rewrite (EndpointsMore.get_file_world _ json_loads isoformat i w). now split.
  - destruct (EndpointsMore.delete_file_table _ i w) as [-> | ->]; [now split|].
    split; [now apply filter_ids_NoDup|now apply forallb_filter_keeps].
Qed.

(** X23: whatever requests are served, in whatever order and with whatever the
    orchestrator answers: when the database never reuses a key that is in
    the table, the ids stay distinct, no row is left in [analyzing], a
    pending row has neither data nor error message, a completed row has
    data and a failed row has an error message. *)
Theorem router_keeps_table_consistent (rs : list request) (w : World Ext) :
  (forall table, ~ In (inserted_primary_key table) (map id table)) ->
  NoDup (map id (db w)) ->
  forallb consistent (db w) = true ->
  NoDup (map id (db (serve_all rs w)))
  /\ forallb consistent (db (serve_all rs w)) = true.
Proof.
  intros Hkey Hnd Hc. assert (H : NoDup (map id (db w))
                                   /\ forallb consistent (db w) = true) by now split.
  clear Hnd Hc. revert w H. unfold Server.serve_all.
  induction rs as [|r rs IH]; intros w H; simpl; [exact H|].
  apply IH. now apply serve_keeps.
Qed.

End Router.

End RouterFacts.

(** ** The routes over the real orchestrator *)

Module AppFacts.
Import Routes.

Section Assembled.

Variable Remote : Type.
Variable fitz_open : content -> outcome exn (list Services.Page).
Variable OCR_AVAILABLE : bool.
Variable generate_content : str -> Remote -> outcome exn (option str) * Remote.
Variable json_loads : str -> outcome exn json.
Variable json_dumps : json -> str.

Abbreviation orchestrator :=
  (App.orchestrator fitz_open OCR_AVAILABLE generate_content json_loads).

Lemma outcomes_all_returned (files : list UploadedFile) :
  forall x : Services.World Remote,
  Forall (fun o => exists extracted, o = Returned extracted)
    (outcomes orchestrator files x).
Proof.
  induction files as [|file rest IH]; intros x; simpl; [constructor|].
  destruct (ServicesFacts.extract_from_pdf_returns _ fitz_open OCR_AVAILABLE
              generate_content json_loads (file_content file) false x)
    as (result & x' & E).
  unfold App.orchestrator. rewrite E. constructor; eauto.
Qed.

Lemma entries_without_error (files : list UploadedFile) :
  forall outs : list (outcome exn ExtractionResult),
  Forall (fun o => exists extracted, o = Returned extracted) outs ->
  Forall (fun entry => entry_error entry = None)
    (map (fun p => entry_of (fst p) (snd p)) (combine files outs)).
Proof.
  induction files as [|f files IH]; intros outs Hall; [constructor|].
  destruct outs as [|o outs]; [constructor|].
  inversion Hall as [|? ? [extracted ->] Hrest]; subst.
  simpl. constructor; [reflexivity|]. now apply IH.
Qed.

(** X24: no failure of the pipeline reaches the caller as a 500: with the
    orchestrator of services.py the single-file route answers with a
    result, or with its own 404 or 400, and the bulk route always answers,
    with no entry carrying an error text. *)
Theorem app_reports_failures_as_results (file_id : Z)
  (w : World (Services.World Remote)) :
  ((exists resp w',
      App.analyze_file fitz_open OCR_AVAILABLE generate_content json_loads
        json_dumps file_id w = (Returned resp, w'))
   \/ App.analyze_file fitz_open OCR_AVAILABLE generate_content json_loads
        json_dumps file_id w
      = (Raised (HTTPException 404 (lit "File not found")), w)
   \/ App.analyze_file fitz_open OCR_AVAILABLE generate_content json_loads
        json_dumps file_id w
      = (Raised (HTTPException 400 (lit "File content not found")), w))
  /\ exists resp w',
       App.analyze_all_pending fitz_open OCR_AVAILABLE generate_content json_loads
         json_dumps w = (Returned resp, w')
       /\ forall entries, results resp = Some entries ->
            Forall (fun entry => entry_error entry = None) entries.
Proof.
  unfold App.analyze_file, App.analyze_all_pending. split.
  - destruct (select_first_by_id file_id (db w)) as [row|] eqn:Hsel.
    + destruct (falsy (file_content row)) eqn:Hc.
      * right. right. exact (RoutesFacts.analyze_file_no_content_run _ _ _ _ _ _ Hsel Hc).
      * left.
        destruct (ServicesFacts.extract_from_pdf_returns _ fitz_open OCR_AVAILABLE
                    generate_content json_loads (file_content row) false (ext w))
          as (result & x' & E).
        rewrite (RoutesFacts.analyze_file_run _ orchestrator json_dumps _ _ _ _ _
                   Hsel Hc E). eauto.
    + right. left. exact (RoutesFacts.analyze_file_not_found_run _ _ _ _ _ Hsel).
  - destruct (select_pending (db w)) as [|file rest] eqn:Hq.
    + rewrite (RoutesMore.empty_queue_run _ orchestrator json_dumps w Hq).
      do 2 eexists. split; [reflexivity|]. intros entries Hres. discriminate.
    + destruct (RoutesFacts.analyze_all_pending_run _ orchestrator json_dumps w)
        as [resp [Hrun Hresp]].
      do 2 eexists. split; [exact Hrun|]. intros entries Hres.
      assert (Hne : select_pending (db w) <> []) by (rewrite Hq; discriminate).
      rewrite (Hresp Hne) in Hres. cbn [results] in Hres. injection Hres as <-.
      apply entries_without_error, outcomes_all_returned.
Qed.

End Assembled.

End AppFacts.

(** ** The further properties at concrete inputs *)

Module Instances.
Import Routes Endpoints Server.

Lemma mixed_ids_distinct : NoDup (map id Fixtures.mixed).
Proof. repeat constructor; simpl; intuition discriminate. Defined.

Lemma next_key_above (table : list UploadedFile) (k : Z) :
  In k (map id table) -> (k <= fold_right Z.max 0 (map id table))%Z.
Proof.
  induction table as [|row rest IH]; simpl; [tauto|].
  intros [<- | Hin]; [lia|]. specialize (IH Hin). lia.
Defined.

Lemma next_key_fresh (table : list UploadedFile) :
  ~ In (Fixtures.next_key table) (map id table).
Proof.
  intros Hin. apply next_key_above in Hin. unfold Fixtures.next_key in Hin. lia.
Defined.

Lemma extract_text_from_pdf_returns_trimmed_witness :
  trimmed (lit "Invoice INV-1" ++ Services.nl ++ lit "Total 10 USD")
  /\ 10 <= List.length (lit "Invoice INV-1" ++ Services.nl ++ lit "Total 10 USD").
Proof.
  apply (ServicesMore.extract_text_from_pdf_returns_trimmed
           Stubs.fitz_open false Stubs.pdf_invoice false).
  reflexivity.
Defined.

Lemma extract_text_from_pdf_embedded_witness :
  Services.extract_text_from_pdf Stubs.fitz_open false Stubs.pdf_invoice true
  = Returned (lit "Invoice INV-1" ++ Services.nl ++ lit "Total 10 USD").
Proof.
  apply (ServicesMore.extract_text_from_pdf_embedded
           Stubs.fitz_open false Stubs.pdf_invoice true
           [Services.mkPage (lit "Invoice INV-1") Stubs.no_ocr;
            Services.mkPage (lit "Total 10 USD") Stubs.no_ocr]).
  - reflexivity.
  - reflexivity.
  - apply Nat.leb_le. reflexivity.
Defined.

Lemma extract_text_from_pdf_ocr_fallback_witness :
  Services.extract_text_from_pdf Stubs.fitz_open true Stubs.pdf_invoice true
  = Services.extract_text_from_pdf Stubs.fitz_open true Stubs.pdf_invoice false.
Proof.
  apply (ServicesMore.extract_text_from_pdf_ocr_fallback
           Stubs.fitz_open true Stubs.pdf_invoice
           [Services.mkPage (lit "Invoice INV-1") Stubs.no_ocr;
            Services.mkPage (lit "Total 10 USD") Stubs.no_ocr]).
  - reflexivity.
  - apply Forall_cons; [right; eexists; reflexivity|].
    apply Forall_cons; [right; eexists; reflexivity|]. apply Forall_nil.
Defined.

Lemma extract_from_pdf_model_failure_witness :
  fst (Services.extract_from_pdf Stubs.fitz_open false Fixtures.model_down
         Stubs.json_loads Stubs.pdf_invoice false (Stubs.fresh 0))
  = Returned {| success := Some false;
                data := None;
                error := Some (lit "Unexpected error");
                details := Some (lit "503 UNAVAILABLE");
                gemini_response := None;
                parse_error := None;
                raw_text_preview := None;
                type_ := Some (lit "ServerError") |}.
Proof.
  rewrite (ServicesMore.extract_from_pdf_model_failure
             nat Stubs.fitz_open false Fixtures.model_down Stubs.json_loads
             Stubs.pdf_invoice false
             (lit "Invoice INV-1" ++ Services.nl ++ lit "Total 10 USD")
             (OtherException (lit "ServerError") (lit "503 UNAVAILABLE"))
             (Stubs.fresh 0) 1);
    reflexivity.
Defined.

Lemma analyze_file_rejects_missing_content_witness :
  analyze_file Stubs.flaky Stubs.json_dumps 2 (Fixtures.mixed_world 0)
  = (Raised (HTTPException 400 (lit "File content not found")),
     Fixtures.mixed_world 0).
Proof.
  eapply (RoutesMore.analyze_file_rejects_missing_content
            nat Stubs.flaky Stubs.json_dumps 2 (Fixtures.mixed_world 0)).
  - reflexivity.
  - right. reflexivity.
Defined.

Lemma analyze_file_records_result_witness :
  exists resp row',
    select_first_by_id 3
      (db (snd (analyze_file Stubs.flaky Stubs.json_dumps 3 (Fixtures.mixed_world 0))))
    = Some row'
    /\ resp_status resp = status row' /\ status row' = completed.
Proof.
  edestruct (RoutesMore.analyze_file_records_result
               nat Stubs.flaky Stubs.json_dumps 3 (Fixtures.mixed_world 0))
    as (resp & row' & _ & Hsel & _ & _ & Hst & Hok & _).
  - reflexivity.
  - reflexivity.
  - reflexivity.
  - exists resp, row'. split; [exact Hsel|]. split; [exact Hst|].
    now apply Hok.
Defined.

Lemma analyze_file_other_rows_witness :
  select_first_by_id 1
    (db (snd (analyze_file Stubs.flaky Stubs.json_dumps 3 (Fixtures.mixed_world 0))))
  = select_first_by_id 1 (db (Fixtures.mixed_world 0)).
Proof.
  apply (RoutesMore.analyze_file_other_rows
           nat Stubs.flaky Stubs.json_dumps 3 1 (Fixtures.mixed_world 0)).
  discriminate.
Defined.

Lemma analyze_all_pending_nothing_pending_witness :
  analyze_all_pending Stubs.flaky Stubs.json_dumps (mkWorld Fixtures.settled 0)
  = (Returned (mkSweepResponse (lit "No pending files to analyze") 0 None None),
     mkWorld Fixtures.settled 0).
Proof.
  apply (RoutesMore.analyze_all_pending_nothing_pending
           nat Stubs.flaky Stubs.json_dumps (mkWorld Fixtures.settled 0)).
  intros row [<- | []]. discriminate.
Defined.

Lemma analyze_all_pending_leaves_settled_witness :
  In (mkFile 1 (lit "a.pdf") 4 (lit "application/pdf") completed 10
        Stubs.pdf_invoice (Some (lit "{}")) None)
     (db (snd (analyze_all_pending Stubs.flaky Stubs.json_dumps
                 (Fixtures.mixed_world 0)))).
Proof.
  apply (RoutesMore.analyze_all_pending_leaves_settled
           nat Stubs.flaky Stubs.json_dumps (Fixtures.mixed_world 0)).
  - exact mixed_ids_distinct.
  - now left.
  - discriminate.
Defined.

Lemma sweep_of_one_is_analyze_file_witness :
  snd (analyze_all_pending Stubs.flaky Stubs.json_dumps
         (mkWorld [Stubs.uploaded 1 Stubs.pdf_invoice] 0))
  = snd (analyze_file Stubs.flaky Stubs.json_dumps 1
           (mkWorld [Stubs.uploaded 1 Stubs.pdf_invoice] 0)).
Proof.
  apply (RoutesMore.sweep_of_one_is_analyze_file
           nat Stubs.flaky Stubs.json_dumps
           (mkWorld [Stubs.uploaded 1 Stubs.pdf_invoice] 0)
           (Stubs.uploaded 1 Stubs.pdf_invoice)).
  - repeat constructor; simpl; tauto.
  - reflexivity.
  - reflexivity.
Defined.

Lemma unknown_id_is_not_found_witness :
  get_file Stubs.json_loads Fixtures.isoformat 9 (Fixtures.mixed_world 0)
  = (Raised (HTTPException 404 (lit "File not found")), Fixtures.mixed_world 0).
Proof.
  apply (proj1 (EndpointsMore.unknown_id_is_not_found
                  nat Stubs.json_loads Fixtures.isoformat 9 (Fixtures.mixed_world 0)
                  ltac:(simpl; intuition discriminate))).
Defined.

Lemma delete_file_removes_witness :
  exists w',
    delete_file 1 (Fixtures.mixed_world 0)
    = (Returned (mkDeleteResponse (lit "File deleted successfully") 1), w')
    /\ ~ In 1%Z (map id (db w')).
Proof.
  edestruct (EndpointsMore.delete_file_removes
               nat Stubs.json_loads Fixtures.isoformat 1 (Fixtures.mixed_world 0))
    as (w' & Hrun & _ & Hgone & _).
  - reflexivity.
  - exists w'. split; [exact Hrun|exact Hgone].
Defined.

Lemma upload_file_then_get_file_witness :
  exists resp w',
    upload_file Fixtures.isoformat Fixtures.next_key (lit "d.pdf") None [x25] 40
      (Fixtures.mixed_world 0)
    = (Returned (Some resp), w')
    /\ up_id resp = 4%Z /\ up_status resp = pending.
Proof.
  destruct (EndpointsMore.upload_file_then_get_file
              nat Stubs.json_loads Fixtures.isoformat Fixtures.next_key
              (lit "d.pdf") None [x25] 40 (Fixtures.mixed_world 0)
              (next_key_fresh Fixtures.mixed))
    as (resp & w' & Hrun & Hid & Hst & _).
  exists resp, w'. split; [exact Hrun|]. split; [exact Hid|exact Hst].
Defined.

Lemma analyze_file_then_get_file_completed_witness :
  exists view,
    fst (get_file Stubs.json_loads Fixtures.isoformat 3
           (snd (analyze_file Stubs.flaky Stubs.json_dumps 3 (Fixtures.mixed_world 0))))
    = Returned view
    /\ view_status view = completed
    /\ view_extracted_data view = JObject [].
Proof.
  edestruct (EndpointsMore.analyze_file_then_get_file_completed
               nat Stubs.flaky Stubs.json_loads Stubs.json_dumps Fixtures.isoformat
               3 (Fixtures.mixed_world 0))
    as (view & Hget & Hst & Hdata & _).
  - reflexivity.
  - reflexivity.
  - reflexivity.
  - reflexivity.
  - reflexivity.
  - discriminate.
  - reflexivity.
  - exists view. split; [exact Hget|]. split; [exact Hst|exact Hdata].
Defined.

Lemma analyze_file_then_get_file_failed_witness :
  exists view,
    fst (get_file Stubs.json_loads Fixtures.isoformat 3
           (snd (analyze_file Stubs.flaky Stubs.json_dumps 3 (Fixtures.mixed_world 1))))
    = Returned view
    /\ view_status view = failed
    /\ view_error_message view = Some (lit "503 UNAVAILABLE").
Proof.
  edestruct (EndpointsMore.analyze_file_then_get_file_failed
               nat Stubs.flaky Stubs.json_loads Stubs.json_dumps Fixtures.isoformat
               3 (Fixtures.mixed_world 1))
    as (view & Hget & Hst & Hmsg & _).
  - reflexivity.
  - reflexivity.
  - reflexivity.
  - reflexivity.
  - exists view. split; [exact Hget|]. split; [exact Hst|exact Hmsg].
Defined.

Lemma get_all_files_lists_every_file_witness :
  exists views,
    get_all_files Stubs.json_loads Fixtures.isoformat Fixtures.newest_first
      (Fixtures.mixed_world 0)
    = (Returned views, Fixtures.mixed_world 0)
    /\ List.length views = 3.
Proof.
  destruct (EndpointsMore.get_all_files_lists_every_file
              nat Stubs.json_loads Fixtures.isoformat Fixtures.newest_first
              (Fixtures.mixed_world 0))
    as (views & Hrun & Hlen & _).
  - change (Permutation (rev Fixtures.mixed) Fixtures.mixed).
    apply Permutation_sym, Permutation_rev.
  - exact mixed_ids_distinct.
  - exists views. split; [exact Hrun|exact Hlen].
Defined.

Lemma router_keeps_table_consistent_witness :
  let w := serve_all Stubs.flaky Stubs.json_loads Stubs.json_dumps
             Fixtures.isoformat Fixtures.newest_first Fixtures.next_key
             [POST_upload (lit "a.pdf") None [x25] 10;
              POST_upload (lit "b.pdf") (Some (lit "application/pdf")) [x25] 20;
              POST_analyze 1; POST_analyze_all; POST_analyze 2; DELETE_file 1]
             (mkWorld [] 0) in
  NoDup (map id (db w)) /\ forallb consistent (db w) = true.
Proof.
  apply (RouterFacts.router_keeps_table_consistent
           nat Stubs.flaky Stubs.json_loads Stubs.json_dumps Fixtures.isoformat
           Fixtures.newest_first Fixtures.next_key).
  - exact next_key_fresh.
  - constructor.
  - reflexivity.
Defined.

End Instances.
